(** * Hermes: queue-triggered transactional mail dispatcher

    A shallow embedding of [main.go]: the request type [mailMessage], the
    message composer [buildMailContent] and the batch handler
    [HandleRequest], with the libraries the program calls
    (configuration loader, JSON decoder, template storage, the two
    template engines, the header encoding and the address formatting of
    the mail library, the mail transport) taken as parameters of a
    section, followed by reference instances: the decoder at the type
    of the request, the template engines on a fragment of the template
    language and the library beyond it, the header encoding, and an
    in-memory world to run the handler in. *)

From stdpp Require Import gmap strings list fin_maps.
From Stdlib Require Import ZArith Ascii.

Set Warnings "-register-all".
Set Default Proof Using "Type".


(** ** Values *)

(** A Go [error], identified with the text its [Error()] method returns;
    [None] at type [option error] is the nil error. *)
Definition error := string.

(** The line feed the format strings of [main.go] write as a backslash n. *)
Definition nl : string := String (Ascii.ascii_of_nat 10) EmptyString.

(** What [encoding/json] stores in an [interface{}]: nil, bool, float64,
    string, []interface{} and map[string]interface{}. A float64 is kept as
    the JSON literal that denotes it; no arithmetic is done on it. *)
Inductive Value :=
| VNil
| VBool (b : bool)
| VNumber (literal : string)
| VString (s : string)
| VSlice (elems : list Value)
| VMap (entries : gmap string Value).

(** [type config struct] (main.go, 18-24). *)
Record config := {
  Bucket : string;
  SMTPHost : string;
  SMTPPort : Z;
  SMTPUserName : string;
  SMTPPassword : string
}.

(** [cfg := config{}] *)
Definition config_zero : config :=
  {| Bucket := ""; SMTPHost := ""; SMTPPort := 0;
     SMTPUserName := ""; SMTPPassword := "" |}.

(** [type mailMessage struct] (main.go, 26-36). A nil slice and an empty
    slice, a nil map and an empty map are not told apart: the program only
    takes [len], ranges over the slices, and hands the map to [Execute]. *)
Record mailMessage := {
  FromName : string;
  FromAddress : string;
  ToAddress : string;
  ReplyToAddress : string;
  Template : string;
  Subject : string;
  CC : list string;
  BCC : list string;
  TemplateContext : gmap string Value
}.

(** [var mailMsg mailMessage] *)
Definition mailMessage_zero : mailMessage :=
  {| FromName := ""; FromAddress := ""; ToAddress := ""; ReplyToAddress := "";
     Template := ""; Subject := ""; CC := []; BCC := [];
     TemplateContext := ∅ |}.

(** [events.SQSMessage], [events.SQSEvent]: the handler reads [Body] only. *)
Record SQSMessage := { MessageId : string; Body : string }.
Record SQSEvent := { Records : list SQSMessage }.

(** ** The composed message (gomail)

    A [gomail.Message] as the program builds it: the header map and the
    body parts. The header map holds what the setters store: [SetHeader]
    stores each value in its header encoding, [SetAddressHeader] the
    formatted address. *)
Record part := { contentType : string; content : string }.

Record Message := {
  header : gmap string (list string);
  parts : list part
}.

Definition NewMessage : Message := {| header := ∅; parts := [] |}.

(** [SetBody] replaces the parts by the one body. *)
Definition SetBody (ct body : string) (m : Message) : Message :=
  {| header := header m; parts := [ {| contentType := ct; content := body |} ] |}.

(** [AddAlternative] appends a part. *)
Definition AddAlternative (ct body : string) (m : Message) : Message :=
  {| header := header m;
     parts := parts m ++ [ {| contentType := ct; content := body |} ] |}.

Definition GetHeader (field : string) (m : Message) : list string :=
  default [] (header m !! field).

(** [gomail.NewDialer]: SSL is on exactly for port 465. *)
Record Dialer := {
  Host : string;
  Port : Z;
  Username : string;
  Password : string;
  SSL : bool
}.

Definition NewDialer (host : string) (port : Z) (username password : string) : Dialer :=
  {| Host := host; Port := port; Username := username; Password := password;
     SSL := (port =? 465)%Z |}.

(** ** Processes

    A run of the handler ends in one of three ways: it returns, it calls
    [os.Exit], or it panics. *)
Inductive outcome (A : Type) :=
| Ok (a : A)
| Exit (code : Z)
| Panic (what : string).
Arguments Ok {A} a.
Arguments Exit {A} code.
Arguments Panic {A} what.

Definition returned {A} (o : outcome A) : bool :=
  match o with Ok _ => true | _ => false end.

(** What Go reports when a method dereferences a nil receiver. *)
Definition nilDereference : string :=
  "runtime error: invalid memory address or nil pointer dereference".

Definition indexOutOfRange : string := "runtime error: index out of range".

Inductive mode := HTML | TXT.

(** The calls a run makes on its collaborators and the lines it writes to
    standard error, in order. *)
Inductive event :=
| EnvParse
| Unmarshal (body : string)
| NewS3 (bucket : string)
| GetTemplate (name : string)
| ParseTemplate (kind : mode) (text : string)
| ExecuteTemplate (kind : mode)
| Send (m : Message)
| Stderr (text : string).

(** Kinds of events, and how many of a kind a log holds. *)
Definition isUnmarshal (e : event) : bool :=
  match e with Unmarshal _ => true | _ => false end.

Definition isSend (e : event) : bool :=
  match e with Send _ => true | _ => false end.

Definition isStderr (e : event) : bool :=
  match e with Stderr _ => true | _ => false end.

Definition isExecute (e : event) : bool :=
  match e with ExecuteTemplate _ => true | _ => false end.

Definition isGetTemplate (e : event) : bool :=
  match e with GetTemplate _ => true | _ => false end.

Definition calls (p : event → bool) (l : list event) : nat :=
  length (List.filter p l).

Section Process.

(** The state outside the process: the environment variables, the
    template bucket, the mail server. *)
Context {World : Type}.

Record state := { world : World; log : list event }.

Definition M (A : Type) : Type := state → outcome A * state.

Definition ret {A} (a : A) : M A := fun st => (Ok a, st).

Definition bind {A B} (c : M A) (k : A → M B) : M B :=
  fun st =>
    match c st with
    | (Ok a, st') => k a st'
    | (Exit code, st') => (Exit code, st')
    | (Panic what, st') => (Panic what, st')
    end.

Definition lift {A} (o : outcome A) : M A := fun st => (o, st).

Definition emit (e : event) : M unit :=
  fun st => (Ok (), {| world := world st; log := log st ++ [e] |}).

Definition panic {A} (what : string) : M A := fun st => (Panic what, st).

(** [exitErrorf] (main.go, 38-41), applied to the message already
    formatted with its arguments: one line on standard error, then
    [os.Exit(1)]. *)
Definition exitErrorf {A} (formatted : string) : M A :=
  fun st =>
    (Exit 1, {| world := world st; log := log st ++ [Stderr (formatted +:+ nl)] |}).

(** What a run from [st] to [st'] added to the log. *)
Definition trace (st st' : state) : list event :=
  drop (length (log st)) (log st').

(** [for _, x := range l { body }] *)
Fixpoint forRange {A} (l : list A) (body : A → M unit) : M unit :=
  match l with
  | [] => ret ()
  | x :: rest => bind (body x) (fun _ => forRange rest body)
  end.

End Process.

Arguments state : clear implicits.
Arguments trace {World} st st'.
Arguments M : clear implicits.

Notation "'do' x <- c ; k" := (bind c (fun x => k))
  (at level 10, x pattern, c at level 100, k at level 200).
Notation "c ;; k" := (bind c (fun _ => k))
  (at level 100, k at level 200, right associativity).

Section Program.

Context {World : Type}.
(** Parsed templates of [html/template] and of [text/template]. *)
Context {HTemplate TTemplate : Type}.
(** [storageconnector.StorageConnector] *)
Context {StorageConnector : Type}.

Local Abbreviation M := (M World).

(** *** Collaborators *)

(** [env.Parse(&cfg)]: the configuration read from the environment. *)
Variable env_Parse : World → config → config * option error.
(** [json.Unmarshal([]byte(body), &mailMsg)]: the request as the decoder
    leaves it, and its error. *)
Variable json_Unmarshal : string → mailMessage → mailMessage * option error.
(** Modelled from the spec: [storageconnector.NewS3] and
    [GetTemplateContent], a package of this repository that is not among
    the sources: a fetch returns the content or does not return (the
    record fails as a whole). *)
Variable storageconnector_NewS3 : string → StorageConnector.
Variable GetTemplateContent :
  StorageConnector → string → World → outcome string * World.
(** [htemplate.New(name).Parse(text)] and [ttemplate.New(name).Parse(text)]:
    a template pointer, nil when there is none, and an error. *)
Variable html_Parse : string → string → option HTemplate * option error.
Variable text_Parse : string → string → option TTemplate * option error.
(** [Execute]: what was written to the buffer, and the error. *)
Variable html_Execute : HTemplate → gmap string Value → string * option error.
Variable text_Execute : TTemplate → gmap string Value → string * option error.
(** [message.FormatAddress(address, name)] *)
Variable FormatAddress : string → string → string.
(** [m.encodeString(value)], the header encoding of a message made by
    [gomail.NewMessage]: [mime.QEncoding.Encode("UTF-8", value)]. *)
Variable encodeString : string → string.
(** [smtpTransport.DialAndSend(mail)] *)
Variable DialAndSend : Dialer → Message → World → option error * World.

(** [SetHeader(field, value...)]: [m.encodeHeader(value)], which encodes
    each value in place, then [m.header[field] = value]. *)
Definition SetHeader (field : string) (value : list string) (m : Message) : Message :=
  {| header := <[field := encodeString <$> value]> (header m); parts := parts m |}.

(** [SetAddressHeader(field, address, name)]:
    [m.header[field] = []string{m.FormatAddress(address, name)}]. *)
Definition SetAddressHeader (field address name : string) (m : Message) : Message :=
  {| header := <[field := [FormatAddress address name]]> (header m);
     parts := parts m |}.

Definition fetch (sc : StorageConnector) (name : string) : M string :=
  emit (GetTemplate name) ;;
  fun st =>
    let '(r, w) := GetTemplateContent sc name (world st) in
    (r, {| world := w; log := log st |}).

Definition parseHTML (name text : string) : M (option HTemplate * option error) :=
  emit (ParseTemplate HTML text) ;; ret (html_Parse name text).

Definition parseTXT (name text : string) : M (option TTemplate * option error) :=
  emit (ParseTemplate TXT text) ;; ret (text_Parse name text).

(** [Execute] through a template pointer: both packages read fields of
    the receiver first, so a nil pointer panics. *)
Definition executeHTML (t : option HTemplate) (data : gmap string Value)
  : M (string * option error) :=
  emit (ExecuteTemplate HTML) ;;
  match t with
  | None => panic nilDereference
  | Some t => ret (html_Execute t data)
  end.

Definition executeTXT (t : option TTemplate) (data : gmap string Value)
  : M (string * option error) :=
  emit (ExecuteTemplate TXT) ;;
  match t with
  | None => panic nilDereference
  | Some t => ret (text_Execute t data)
  end.

Definition send (d : Dialer) (m : Message) : M (option error) :=
  emit (Send m) ;;
  fun st =>
    let '(err, w) := DialAndSend d m (world st) in
    (Ok err, {| world := w; log := log st |}).

(** *** [buildMailContent] (main.go, 43-81) *)

(** [for i, r := range src { dst[i] = message.FormatAddress(r, "") }],
    from index [i] on; an index outside [dst] panics. *)
Fixpoint formatInto (i : nat) (src dst : list string) : outcome (list string) :=
  match src with
  | [] => Ok dst
  | r :: rest =>
      if decide (i < length dst)
      then formatInto (S i) rest (<[i := FormatAddress r ""]> dst)
      else Panic indexOutOfRange
  end.

(** [out := make([]string, len(src))], then the loop. *)
Definition formatAll (src : list string) : outcome (list string) :=
  formatInto 0 src (replicate (length src) "").

Definition buildMailContent (storageConnector : StorageConnector)
    (mailMsg : mailMessage) : M Message :=
  let message := NewMessage in
  do htmlSrc <- fetch storageConnector (Template mailMsg +:+ ".html.template");
  do htmlParsed <- parseHTML "htmlTemplate" htmlSrc;
  let htmlTmpl := fst htmlParsed in
  do txtSrc <- fetch storageConnector (Template mailMsg +:+ ".txt.template");
  do txtParsed <- parseTXT "textTemplate" txtSrc;
  let txtTmpl := fst txtParsed in
  do htmlResult <- executeHTML htmlTmpl (TemplateContext mailMsg);
  let htmlTmplBuffer := fst htmlResult in
  match snd htmlResult with
  | Some err => exitErrorf ("Unable to execute HTML template: " +:+ err +:+ nl)
  | None => ret ()
  end ;;
  do txtResult <- executeTXT txtTmpl (TemplateContext mailMsg);
  let txtTmplBuffer := fst txtResult in
  match snd txtResult with
  | Some err => exitErrorf ("Unable to execute TXT template: " +:+ err +:+ nl)
  | None => ret ()
  end ;;
  do ccAddresses <- lift (formatAll (CC mailMsg));
  do bccAddresses <- lift (formatAll (BCC mailMsg));
  let message := SetBody "text/plain" txtTmplBuffer message in
  let message := AddAlternative "text/html" htmlTmplBuffer message in
  let message := SetAddressHeader "From" (FromAddress mailMsg) (FromName mailMsg) message in
  let message := SetHeader "To" [ToAddress mailMsg] message in
  let message := SetHeader "Subject" [Subject mailMsg] message in
  let message := SetHeader "Cc" ccAddresses message in
  let message := SetHeader "Bcc" bccAddresses message in
  let message := SetHeader "Reply-To" [ReplyToAddress mailMsg] message in
  ret message.

(** The message [buildMailContent] assembles from a request and the two
    rendered bodies. *)
Definition composed (q : mailMessage) (msg : Message) : Prop :=
  header msg !! "From" = Some [FormatAddress (FromAddress q) (FromName q)]
  ∧ header msg !! "To" = Some [encodeString (ToAddress q)]
  ∧ header msg !! "Subject" = Some [encodeString (Subject q)]
  ∧ header msg !! "Cc"
    = Some (encodeString <$> ((λ a, FormatAddress a "") <$> CC q))
  ∧ header msg !! "Bcc"
    = Some (encodeString <$> ((λ a, FormatAddress a "") <$> BCC q))
  ∧ header msg !! "Reply-To" = Some [encodeString (ReplyToAddress q)]
  ∧ ∃ txt html, parts msg = [ {| contentType := "text/plain"; content := txt |};
                              {| contentType := "text/html"; content := html |} ].

(** *** [HandleRequest] (main.go, 84-110) *)

(** The body of [for _, message := range event.Records]. *)
Definition handleRecord (cfg : config) (smtpTransport : Dialer)
    (message : SQSMessage) : M unit :=
  emit (Unmarshal (Body message)) ;;
  let decoded := json_Unmarshal (Body message) mailMessage_zero in
  let mailMsg := fst decoded in
  match snd decoded with
  | Some err =>
      exitErrorf ("Unable to unmarshal JSON for reason: " +:+ err +:+ nl
                  +:+ "Body: " +:+ Body message)
  | None => ret ()
  end ;;
  emit (NewS3 (Bucket cfg)) ;;
  let storageConnector := storageconnector_NewS3 (Bucket cfg) in
  do mail <- buildMailContent storageConnector mailMsg;
  do sent <- send smtpTransport mail;
  match sent with
  | Some err => exitErrorf ("Unable to send mail: " +:+ err +:+ nl)
  | None => ret ()
  end.

Definition loadConfig : M config :=
  emit EnvParse ;;
  fun st =>
    let '(cfg, err) := env_Parse (world st) config_zero in
    match err with
    | Some err => exitErrorf ("Unable to parse configuration: " +:+ err +:+ nl) st
    | None => (Ok cfg, st)
    end.

Definition HandleRequest (event : SQSEvent) : M (option error) :=
  do cfg <- loadConfig;
  let smtpTransport :=
    NewDialer (SMTPHost cfg) (SMTPPort cfg) (SMTPUserName cfg) (SMTPPassword cfg) in
  forRange (Records event) (handleRecord cfg smtpTransport) ;;
  ret None.

End Program.


(** ** Reference decoder ([encoding/json], at type [mailMessage])

    [json.Unmarshal(data, &mailMsg)] checks the syntax of [data] first and
    then stores the value into the struct, member by member, under the
    names the tags of [mailMessage] give. Error texts are indicative. *)

Module json.

Inductive JSON :=
| JNull
| JBool (b : bool)
| JNumber (literal : string)
| JString (s : string)
| JArray (elems : list JSON)
| JObject (members : list (string * JSON)).

(** *** Syntax *)

Definition code (c : ascii) : N := N_of_ascii c.

Definition char (n : N) : ascii := ascii_of_N n.

Definition isByte (n : N) (c : ascii) : bool := (code c =? n)%N.

Definition isSpace (c : ascii) : bool :=
  isByte 32 c || isByte 9 c || isByte 13 c || isByte 10 c.

Definition isDigit (c : ascii) : bool :=
  (48 <=? code c)%N && (code c <=? 57)%N.

Definition hexVal (c : ascii) : option N :=
  let n := code c in
  if (48 <=? n)%N && (n <=? 57)%N then Some (n - 48)%N
  else if (97 <=? n)%N && (n <=? 102)%N then Some (n - 97 + 10)%N
  else if (65 <=? n)%N && (n <=? 70)%N then Some (n - 65 + 10)%N
  else None.

Fixpoint skipSpace (s : string) : string :=
  match s with
  | String c rest => if isSpace c then skipSpace rest else s
  | EmptyString => s
  end.

(** The digits [s] starts with, and what follows them. *)
Fixpoint digits (s : string) : string * string :=
  match s with
  | String c rest =>
      if isDigit c
      then let '(ds, rest') := digits rest in (String c ds, rest')
      else (EmptyString, s)
  | EmptyString => (EmptyString, s)
  end.

Definition scanInt (s : string) : option (string * string) :=
  match s with
  | String c rest =>
      if isByte 48 c then Some (String c EmptyString, rest)
      else if isDigit c
           then let '(ds, rest') := digits rest in Some (String c ds, rest')
           else None
  | EmptyString => None
  end.

Definition scanFrac (s : string) : option (string * string) :=
  match s with
  | String c rest =>
      if isByte 46 c
      then match digits rest with
           | (EmptyString, _) => None
           | (ds, rest') => Some (String c ds, rest')
           end
      else Some (EmptyString, s)
  | EmptyString => Some (EmptyString, s)
  end.

Definition scanExp (s : string) : option (string * string) :=
  match s with
  | String e rest =>
      if isByte 101 e || isByte 69 e
      then
        let '(sign, rest1) :=
          match rest with
          | String g r => if isByte 43 g || isByte 45 g
                          then (String g EmptyString, r)
                          else (EmptyString, rest)
          | EmptyString => (EmptyString, rest)
          end in
        match digits rest1 with
        | (EmptyString, _) => None
        | (ds, rest') => Some (String e (sign +:+ ds), rest')
        end
      else Some (EmptyString, s)
  | EmptyString => Some (EmptyString, s)
  end.

(** A number literal: sign, integer part, fraction, exponent. *)
Definition scanNumber (s : string) : option (string * string) :=
  let '(sign, s1) :=
    match s with
    | String c r => if isByte 45 c then (String c EmptyString, r) else (EmptyString, s)
    | EmptyString => (EmptyString, s)
    end in
  '(int, s2) ← scanInt s1;
  '(frac, s3) ← scanFrac s2;
  '(exp, s4) ← scanExp s3;
  Some (sign +:+ int +:+ frac +:+ exp, s4).

(** The text of a string literal up to its closing quote, escapes left
    as written: a control character or a malformed escape is an error. *)
Fixpoint scanRaw (s : string) : option (string * string) :=
  match s with
  | EmptyString => None
  | String c rest =>
      if isByte 34 c then Some (EmptyString, rest)
      else if isByte 92 c then
        match rest with
        | EmptyString => None
        | String e rest1 =>
            if isByte 117 e then
              match rest1 with
              | String h1 (String h2 (String h3 (String h4 rest2))) =>
                  match hexVal h1, hexVal h2, hexVal h3, hexVal h4 with
                  | Some _, Some _, Some _, Some _ =>
                      '(raw, rest') ← scanRaw rest2;
                      Some (String c (String e (String h1 (String h2
                              (String h3 (String h4 raw))))), rest')
                  | _, _, _, _ => None
                  end
              | _ => None
              end
            else if isByte 34 e || isByte 92 e || isByte 47 e || isByte 98 e || isByte 102 e
                    || isByte 110 e || isByte 114 e || isByte 116 e
            then '(raw, rest') ← scanRaw rest1;
                 Some (String c (String e raw), rest')
            else None
        end
      else if (code c <? 32)%N then None
      else '(raw, rest') ← scanRaw rest; Some (String c raw, rest')
  end.

(** [utf8.EncodeRune] *)
Definition encodeRune (r : N) : string :=
  if (r <? 128)%N then String (char r) EmptyString
  else if (r <? 2048)%N then
    String (char (192 + r / 64)) (String (char (128 + r mod 64)) EmptyString)
  else if (r <? 65536)%N then
    String (char (224 + r / 4096))
      (String (char (128 + (r / 64) mod 64))
         (String (char (128 + r mod 64)) EmptyString))
  else
    String (char (240 + r / 262144))
      (String (char (128 + (r / 4096) mod 64))
         (String (char (128 + (r / 64) mod 64))
            (String (char (128 + r mod 64)) EmptyString))).

Definition replacementChar : N := 65533.

(** [getu4]: the rune of a [\uXXXX] that [s] starts with. *)
Definition getu4 (s : string) : option (N * string) :=
  match s with
  | String b (String u (String h1 (String h2 (String h3 (String h4 rest))))) =>
      if isByte 92 b && isByte 117 u then
        match hexVal h1, hexVal h2, hexVal h3, hexVal h4 with
        | Some a, Some b, Some c, Some d =>
            Some (((a * 16 + b) * 16 + c) * 16 + d, rest)%N
        | _, _, _, _ => None
        end
      else None
  | _ => None
  end.

Definition isSurrogate (r : N) : bool := (55296 <=? r)%N && (r <? 57344)%N.

(** [utf16.DecodeRune] *)
Definition decodeSurrogates (r1 r2 : N) : N :=
  if (55296 <=? r1)%N && (r1 <? 56320)%N && (56320 <=? r2)%N && (r2 <? 57344)%N
  then ((r1 - 55296) * 1024 + (r2 - 56320) + 65536)%N
  else replacementChar.

Definition unescape (e : ascii) : ascii :=
  if isByte 98 e then char 8
  else if isByte 102 e then char 12
  else if isByte 110 e then char 10
  else if isByte 114 e then char 13
  else if isByte 116 e then char 9
  else e.

(** [unquote]: the string a scanned literal denotes. Bytes outside ASCII
    are copied: record bodies are UTF-8. *)
Fixpoint unquote (fuel : nat) (raw : string) : string :=
  match fuel with
  | O => EmptyString
  | S fuel =>
      match raw with
      | EmptyString => EmptyString
      | String c rest =>
          if isByte 92 c then
            match rest with
            | EmptyString => EmptyString
            | String e rest1 =>
                if isByte 117 e then
                  match getu4 raw with
                  | None => EmptyString
                  | Some (r, rest2) =>
                      if isSurrogate r then
                        match getu4 rest2 with
                        | Some (r2, rest3) =>
                            let dec := decodeSurrogates r r2 in
                            if (dec =? replacementChar)%N
                            then encodeRune replacementChar +:+ unquote fuel rest2
                            else encodeRune dec +:+ unquote fuel rest3
                        | None => encodeRune replacementChar +:+ unquote fuel rest2
                        end
                      else encodeRune r +:+ unquote fuel rest2
                  end
                else String (unescape e) (unquote fuel rest1)
            end
          else String c (unquote fuel rest)
      end
  end.

Definition scanString (s : string) : option (string * string) :=
  '(raw, rest) ← scanRaw s;
  Some (unquote (String.length raw) raw, rest).

Definition expect (word : string) (s : string) : option string :=
  if String.prefix word s
  then Some (String.substring (String.length word)
                              (String.length s - String.length word) s)
  else None.

(** Objects and arrays nest at most this deep. *)
Definition maxNestingDepth : nat := 100 * 100.

(** One value, with the members of an object and the elements of an
    array; [S depth] is how far below the nesting limit the value
    stands, and each loop runs at most once for each byte left. *)
Fixpoint scanValue (budget : nat) (s : string) : option (JSON * string) :=
  match budget with
  | O => None
  | S depth =>
      let members :=
        fix members (n : nat) (s : string) : option (list (string * JSON) * string) :=
          match n with
          | O => None
          | S n =>
              match skipSpace s with
              | String q rest =>
                  if isByte 34 q then
                    '(key, s1) ← scanString rest;
                    match skipSpace s1 with
                    | String colon s2 =>
                        if isByte 58 colon then
                          '(v, s3) ← scanValue depth s2;
                          match skipSpace s3 with
                          | String d s4 =>
                              if isByte 44 d then
                                '(ms, s5) ← members n s4; Some ((key, v) :: ms, s5)
                              else if isByte 125 d then Some ([(key, v)], s4)
                              else None
                          | EmptyString => None
                          end
                        else None
                    | EmptyString => None
                    end
                  else None
              | EmptyString => None
              end
          end in
      let elements :=
        fix elements (n : nat) (s : string) : option (list JSON * string) :=
          match n with
          | O => None
          | S n =>
              '(v, s1) ← scanValue depth s;
              match skipSpace s1 with
              | String d s2 =>
                  if isByte 44 d then
                    '(vs, s3) ← elements n s2; Some (v :: vs, s3)
                  else if isByte 93 d then Some ([v], s2)
                  else None
              | EmptyString => None
              end
          end in
      match skipSpace s with
      | EmptyString => None
      | String c rest =>
          if isByte 123 c then
            match depth, skipSpace rest with
            | S _, String d rest1 =>
                if isByte 125 d then Some (JObject [], rest1)
                else '(ms, s1) ← members (String.length s) rest; Some (JObject ms, s1)
            | _, _ => None
            end
          else if isByte 91 c then
            match depth, skipSpace rest with
            | S _, String d rest1 =>
                if isByte 93 d then Some (JArray [], rest1)
                else '(vs, s1) ← elements (String.length s) rest; Some (JArray vs, s1)
            | _, _ => None
            end
          else if isByte 34 c then
            '(str, s1) ← scanString rest; Some (JString str, s1)
          else if isByte 45 c || isDigit c then
            '(lit, s1) ← scanNumber (String c rest); Some (JNumber lit, s1)
          else if isByte 116 c then s1 ← expect "rue" rest; Some (JBool true, s1)
          else if isByte 102 c then s1 ← expect "alse" rest; Some (JBool false, s1)
          else if isByte 110 c then s1 ← expect "ull" rest; Some (JNull, s1)
          else None
      end
  end.

(** [checkValid]: one value, white space around it, nothing else. *)
Definition scan (data : string) : option JSON :=
  '(v, rest) ← scanValue (S maxNestingDepth) data;
  match skipSpace rest with
  | EmptyString => Some v
  | _ => None
  end.

(** *** Values stored in an [interface{}] *)

Fixpoint numeral (s : string) (acc : N) : N :=
  match s with
  | String c rest => numeral rest (acc * 10 + (code c - 48))%N
  | EmptyString => acc
  end.

(** Half an ulp above the largest float64: a literal from there on does
    not convert ([strconv.ParseFloat] reports a range error). *)
Definition float64Limit : N := (2 ^ 1024 - 2 ^ 970)%N.

Definition float64InRange (literal : string) : bool :=
  let s :=
    match literal with
    | String c r => if isByte 45 c then r else literal
    | EmptyString => literal
    end in
  let '(int, s1) := digits s in
  let '(frac, s2) :=
    match s1 with
    | String c r => if isByte 46 c then digits r else (EmptyString, s1)
    | EmptyString => (EmptyString, s1)
    end in
  let e : Z :=
    match s2 with
    | String _ (String g r) =>
        if isByte 45 g then (- Z.of_N (numeral r 0))%Z
        else if isByte 43 g then Z.of_N (numeral r 0)
        else Z.of_N (numeral (String g r) 0)
    | _ => 0%Z
    end in
  let m := numeral (int +:+ frac) 0 in
  let e10 := (e - Z.of_nat (String.length frac))%Z in
  if (0 <=? e10)%Z
  then (m * 10 ^ Z.to_N e10 <? float64Limit)%N
  else (m <? float64Limit * 10 ^ Z.to_N (- e10))%N.

Definition kind (j : JSON) : string :=
  match j with
  | JNull => "null"
  | JBool _ => "bool"
  | JNumber _ => "number"
  | JString _ => "string"
  | JArray _ => "array"
  | JObject _ => "object"
  end.

(** The decoder goes on after an error and reports the first one. *)
Definition firstError (e1 e2 : option error) : option error :=
  match e1 with Some _ => e1 | None => e2 end.

(** [valueInterface]: a later member of an object replaces an earlier
    one of the same name. *)
Fixpoint toValue (j : JSON) : Value * option error :=
  match j with
  | JNull => (VNil, None)
  | JBool b => (VBool b, None)
  | JNumber l =>
      if float64InRange l then (VNumber l, None)
      else (VNil, Some ("json: cannot unmarshal number " +:+ l
                        +:+ " into Go value of type float64"))
  | JString s => (VString s, None)
  | JArray elems =>
      let elements :=
        fix elements (l : list JSON) : list Value * option error :=
          match l with
          | [] => ([], None)
          | x :: rest =>
              let '(v, e) := toValue x in
              let '(vs, e') := elements rest in
              (v :: vs, firstError e e')
          end in
      let '(vs, e) := elements elems in (VSlice vs, e)
  | JObject members =>
      let entries :=
        fix entries (l : list (string * JSON)) (m : gmap string Value)
          : gmap string Value * option error :=
          match l with
          | [] => (m, None)
          | (k, x) :: rest =>
              let '(v, e) := toValue x in
              let '(m', e') := entries rest (<[k := v]> m) in
              (m', firstError e e')
          end in
      let '(m, e) := entries members ∅ in (VMap m, e)
  end.

(** *** Values stored in the struct *)

(** The fields of [mailMessage], by their [json] tags. *)
Inductive field :=
| from_name | from_address | to_address | reply_to | template_name
| subject | cc | bcc | template_context.

Definition fields : list field :=
  [from_name; from_address; to_address; reply_to; template_name;
   subject; cc; bcc; template_context].

Definition tag (f : field) : string :=
  match f with
  | from_name => "from_name"
  | from_address => "from_address"
  | to_address => "to_address"
  | reply_to => "reply_to"
  | template_name => "template_name"
  | subject => "subject"
  | cc => "cc"
  | bcc => "bcc"
  | template_context => "template_context"
  end.

(** Member names match tags up to case: ASCII letters, and the two
    letters outside ASCII that fold to one (U+017F to S, U+212A to K). *)
Fixpoint foldName (s : string) : string :=
  match s with
  | EmptyString => EmptyString
  | String c rest =>
      if (97 <=? code c)%N && (code c <=? 122)%N
      then String (char (code c - 32)) (foldName rest)
      else
        match rest with
        | String c2 rest2 =>
            if isByte 197 c && isByte 191 c2
            then String (char 83) (foldName rest2)
            else
              match rest2 with
              | String c3 rest3 =>
                  if isByte 226 c && isByte 132 c2 && isByte 170 c3
                  then String (char 75) (foldName rest3)
                  else String c (foldName rest)
              | EmptyString => String c (foldName rest)
              end
        | EmptyString => String c (foldName rest)
        end
  end.

Definition fieldOf (key : string) : option field :=
  List.find (λ f, bool_decide (foldName (tag f) = foldName key)) fields.

(** No member of the object is a field of the request. *)
Definition noField (members : list (string * JSON)) : bool :=
  forallb (λ m, match fieldOf m.1 with None => true | Some _ => false end)
          members.

Definition typeError (j : JSON) (f : field) (gotype : string) : error :=
  "json: cannot unmarshal " +:+ kind j +:+ " into Go struct field mailMessage."
    +:+ tag f +:+ " of type " +:+ gotype.

(** Into a [string]: null leaves it as it is. *)
Definition storeString (f : field) (j : JSON) (old : string) : string * option error :=
  match j with
  | JString s => (s, None)
  | JNull => (old, None)
  | _ => (old, Some (typeError j f "string"))
  end.

(** Into the elements of a [[]string], one after the other from the
    first: element [i] of the array is stored into element [i] of the
    memory behind the slice, and into a new, empty string past its end. *)
Fixpoint storeStrings (f : field) (elems : list JSON) (array : list string)
  : list string * option error :=
  match elems with
  | [] => ([], None)
  | j :: rest =>
      let '(s, e) := storeString f j (default EmptyString (head array)) in
      let '(ss, e') := storeStrings f rest (tail array) in
      (s :: ss, firstError e e')
  end.

(** A [[]string] as the decoder sees it: the elements of the slice, and
    what the memory behind it holds past its length (a slice that was
    cut keeps there the elements it had; memory the decoder allocates
    holds empty strings, which are left out). *)
Record slice := { visible : list string; spare : list string }.

Definition nilSlice : slice := {| visible := []; spare := [] |}.

(** Into a [[]string]. An array is stored element by element into the
    memory behind the slice, growing it when it ends, and the slice is
    set to the length of the array; what the memory held past that
    length stays there. The empty array gives a new, empty slice, null
    the nil slice. *)
Definition storeSlice (f : field) (j : JSON) (old : slice) : slice * option error :=
  match j with
  | JArray [] => (nilSlice, None)
  | JArray elems =>
      let array := visible old ++ spare old in
      let '(l, e) := storeStrings f elems array in
      ({| visible := l; spare := drop (length elems) array |}, e)
  | JNull => (nilSlice, None)
  | _ => (old, Some (typeError j f "[]string"))
  end.

Fixpoint storeEntries (members : list (string * JSON)) (m : gmap string Value)
  : gmap string Value * option error :=
  match members with
  | [] => (m, None)
  | (k, x) :: rest =>
      let '(v, e) := toValue x in
      let '(m', e') := storeEntries rest (<[k := v]> m) in
      (m', firstError e e')
  end.

(** Into a [map[string]interface{}]: entries are added to the map. *)
Definition storeMap (f : field) (j : JSON) (old : gmap string Value)
  : gmap string Value * option error :=
  match j with
  | JObject members => storeEntries members old
  | JNull => (∅, None)
  | _ => (old, Some (typeError j f "map[string]interface {}"))
  end.

(** The struct being filled: the request, and the memory behind its
    two slices past their length. *)
Record target := {
  request : mailMessage;
  ccSpare : list string;
  bccSpare : list string
}.

(** A request whose slices have no memory past their length, as the
    nil slices of [var mailMsg mailMessage] have. *)
Definition targetOf (v : mailMessage) : target :=
  {| request := v; ccSpare := []; bccSpare := [] |}.

Definition storeField (f : field) (j : JSON) (t : target) : target * option error :=
  let v := request t in
  let strings (v' : mailMessage) :=
    {| request := v'; ccSpare := ccSpare t; bccSpare := bccSpare t |} in
  match f with
  | from_name =>
      let '(s, e) := storeString f j (FromName v) in
      (strings
         {| FromName := s; FromAddress := FromAddress v; ToAddress := ToAddress v;
            ReplyToAddress := ReplyToAddress v; Template := Template v;
            Subject := Subject v; CC := CC v; BCC := BCC v;
            TemplateContext := TemplateContext v |}, e)
  | from_address =>
      let '(s, e) := storeString f j (FromAddress v) in
      (strings
         {| FromName := FromName v; FromAddress := s; ToAddress := ToAddress v;
            ReplyToAddress := ReplyToAddress v; Template := Template v;
            Subject := Subject v; CC := CC v; BCC := BCC v;
            TemplateContext := TemplateContext v |}, e)
  | to_address =>
      let '(s, e) := storeString f j (ToAddress v) in
      (strings
         {| FromName := FromName v; FromAddress := FromAddress v; ToAddress := s;
            ReplyToAddress := ReplyToAddress v; Template := Template v;
            Subject := Subject v; CC := CC v; BCC := BCC v;
            TemplateContext := TemplateContext v |}, e)
  | reply_to =>
      let '(s, e) := storeString f j (ReplyToAddress v) in
      (strings
         {| FromName := FromName v; FromAddress := FromAddress v;
            ToAddress := ToAddress v; ReplyToAddress := s; Template := Template v;
            Subject := Subject v; CC := CC v; BCC := BCC v;
            TemplateContext := TemplateContext v |}, e)
  | template_name =>
      let '(s, e) := storeString f j (Template v) in
      (strings
         {| FromName := FromName v; FromAddress := FromAddress v;
            ToAddress := ToAddress v; ReplyToAddress := ReplyToAddress v;
            Template := s; Subject := Subject v; CC := CC v; BCC := BCC v;
            TemplateContext := TemplateContext v |}, e)
  | subject =>
      let '(s, e) := storeString f j (Subject v) in
      (strings
         {| FromName := FromName v; FromAddress := FromAddress v;
            ToAddress := ToAddress v; ReplyToAddress := ReplyToAddress v;
            Template := Template v; Subject := s; CC := CC v; BCC := BCC v;
            TemplateContext := TemplateContext v |}, e)
  | cc =>
      let '(l, e) :=
        storeSlice f j {| visible := CC v; spare := ccSpare t |} in
      ({| request :=
            {| FromName := FromName v; FromAddress := FromAddress v;
               ToAddress := ToAddress v; ReplyToAddress := ReplyToAddress v;
               Template := Template v; Subject := Subject v;
               CC := visible l; BCC := BCC v;
               TemplateContext := TemplateContext v |};
          ccSpare := spare l; bccSpare := bccSpare t |}, e)
  | bcc =>
      let '(l, e) :=
        storeSlice f j {| visible := BCC v; spare := bccSpare t |} in
      ({| request :=
            {| FromName := FromName v; FromAddress := FromAddress v;
               ToAddress := ToAddress v; ReplyToAddress := ReplyToAddress v;
               Template := Template v; Subject := Subject v;
               CC := CC v; BCC := visible l;
               TemplateContext := TemplateContext v |};
          ccSpare := ccSpare t; bccSpare := spare l |}, e)
  | template_context =>
      let '(m, e) := storeMap f j (TemplateContext v) in
      (strings
         {| FromName := FromName v; FromAddress := FromAddress v;
            ToAddress := ToAddress v; ReplyToAddress := ReplyToAddress v;
            Template := Template v; Subject := Subject v; CC := CC v; BCC := BCC v;
            TemplateContext := m |}, e)
  end.

(** The members of an object in order; a name that is no field is
    skipped with its value. *)
Fixpoint storeInto (members : list (string * JSON)) (t : target)
  : target * option error :=
  match members with
  | [] => (t, None)
  | (key, j) :: rest =>
      let '(t1, e1) :=
        match fieldOf key with
        | Some f => storeField f j t
        | None => (t, None)
        end in
      let '(t2, e2) := storeInto rest t1 in
      (t2, firstError e1 e2)
  end.

(** The members of an object into a request. *)
Definition storeMembers (members : list (string * JSON)) (v : mailMessage)
  : mailMessage * option error :=
  let '(t, e) := storeInto members (targetOf v) in (request t, e).

(** Into the struct: an object by its members, null with no effect,
    anything else is a type error. *)
Definition store (j : JSON) (v : mailMessage) : mailMessage * option error :=
  match j with
  | JObject members => storeMembers members v
  | JNull => (v, None)
  | _ => (v, Some ("json: cannot unmarshal " +:+ kind j
                   +:+ " into Go value of type main.mailMessage"))
  end.

Definition Unmarshal (data : string) (v : mailMessage) : mailMessage * option error :=
  match scan data with
  | None => (v, Some "invalid character in JSON input")
  | Some j => store j v
  end.

End json.

(** ** Reference template engines ([text/template], [html/template])

    The engines are described on a fragment of the template language:
    literal text and actions that are a chain of fields of the context,
    [{{.}}], [{{.name}}], [{{ .user.name }}], under the default
    [missingkey] option (the program sets none); for [html/template],
    with every action in element content. A template outside the
    fragment is left to the library, which is a parameter here. Error
    texts are indicative. *)

Module template.

Inductive node :=
| Text (s : string)
| Field (ident : list string).

Definition code (c : ascii) : N := N_of_ascii c.

Definition isByte (n : N) (c : ascii) : bool := (code c =? n)%N.

Definition isAlpha (c : ascii) : bool :=
  ((97 <=? code c)%N && (code c <=? 122)%N)
  || ((65 <=? code c)%N && (code c <=? 90)%N).

Definition isAlphaNumeric (c : ascii) : bool :=
  isAlpha c || isByte 95 c || ((48 <=? code c)%N && (code c <=? 57)%N).

(** *** Parsing *)

(** [s] cut at the first occurrence of the two bytes [a], [b]. *)
Fixpoint cut (a b : N) (s : string) : option (string * string) :=
  match s with
  | String c (String d rest as tl) =>
      if isByte a c && isByte b d then Some (EmptyString, rest)
      else '(before, after) ← cut a b tl; Some (String c before, after)
  | _ => None
  end.

Fixpoint trimLeft (s : string) : string :=
  match s with
  | String c rest => if isByte 32 c || isByte 9 c then trimLeft rest else s
  | EmptyString => s
  end.

Definition trim (s : string) : string :=
  String.rev (trimLeft (String.rev (trimLeft s))).

(** An identifier at the head of [s], and what follows it. *)
Fixpoint identifier (s : string) : string * string :=
  match s with
  | String c rest =>
      if isAlphaNumeric c
      then let '(id, rest') := identifier rest in (String c id, rest')
      else (EmptyString, s)
  | EmptyString => (EmptyString, s)
  end.

(** [.a.b.c]: each field is a dot and an identifier that does not
    start with a digit. *)
Fixpoint chain (fuel : nat) (s : string) : option (list string) :=
  match fuel with
  | O => None
  | S fuel =>
      match s with
      | EmptyString => Some []
      | String c rest =>
          if isByte 46 c then
            match identifier rest with
            | (String i id, rest') =>
                if isAlpha i || isByte 95 i
                then ids ← chain fuel rest'; Some (String i id :: ids)
                else None
            | (EmptyString, _) => None
            end
          else None
      end
  end.

Definition action (body : string) : option node :=
  let b := trim body in
  if bool_decide (b = ".") then Some (Field [])
  else
    match b with
    | EmptyString => None
    | _ => ids ← chain (String.length b) b; Some (Field ids)
    end.

Definition text (s : string) (rest : list node) : list node :=
  match s with
  | EmptyString => rest
  | _ => Text s :: rest
  end.

(** What reading a source gives: the nodes of a template of the
    fragment; an action that is opened and never closed, which no
    template has; or something outside the fragment. *)
Inductive parsed :=
| Parsed (nodes : list node)
| Unclosed
| Outside.

(** Text up to the next [{{], the action up to its [}}], and so on. A
    [{{] with no [}}] anywhere after it is unclosed whatever stands
    before it. *)
Fixpoint parseNodes (fuel : nat) (src : string) : parsed :=
  match fuel with
  | O => Outside
  | S fuel =>
      match cut 123 123 src with
      | None => Parsed (text src [])
      | Some (before, after) =>
          match cut 125 125 after with
          | None => Unclosed
          | Some (body, rest) =>
              match parseNodes fuel rest, action body with
              | Unclosed, _ => Unclosed
              | Parsed nodes, Some n => Parsed (text before (n :: nodes))
              | _, _ => Outside
              end
          end
      end
  end.

(** The nodes of a source. *)
Definition read (src : string) : parsed :=
  parseNodes (S (String.length src)) src.

(** *** Execution *)

Inductive result (A : Type) :=
| Done (a : A)
| Failed (err : error).
Arguments Done {A} a.
Arguments Failed {A} err.

(** One field of a receiver; [None] is the invalid value a missing entry
    of a map evaluates to under [missingkey=default]. *)
Definition evalField (receiver : option Value) (name : string)
  : result (option Value) :=
  match receiver with
  | None => Done None
  | Some (VMap entries) => Done (entries !! name)
  | Some VNil => Failed ("nil pointer evaluating interface {}." +:+ name)
  | Some _ => Failed ("can't evaluate field " +:+ name +:+ " in type interface {}")
  end.

Fixpoint evalFieldChain (receiver : option Value) (ident : list string)
  : result (option Value) :=
  match ident with
  | [] => Done receiver
  | name :: rest =>
      match evalField receiver name with
      | Done v => evalFieldChain v rest
      | Failed err => Failed err
      end
  end.

(** [htmlReplacementTable] *)
Definition htmlEscapeByte (c : ascii) : string :=
  if isByte 0 c then String (ascii_of_N 239) (String (ascii_of_N 191)
                       (String (ascii_of_N 189) EmptyString))
  else if isByte 34 c then "&#34;"
  else if isByte 38 c then "&amp;"
  else if isByte 39 c then "&#39;"
  else if isByte 43 c then "&#43;"
  else if isByte 60 c then "&lt;"
  else if isByte 62 c then "&gt;"
  else String c EmptyString.

Fixpoint htmlEscape (s : string) : string :=
  match s with
  | EmptyString => EmptyString
  | String c rest => htmlEscapeByte c +:+ htmlEscape rest
  end.

(** Where the scan of literal HTML stands: in element content, after
    the [<] (and the [/]) of a tag, or in the name of a tag. *)
Inductive context :=
| stateText
| stateOpen (slash : bool)
| stateName (name : string).

Definition lower (c : ascii) : ascii :=
  if (65 <=? code c)%N && (code c <=? 90)%N
  then ascii_of_N (code c + 32) else c.

(** Elements whose content is not HTML text. *)
Definition special (name : string) : bool :=
  bool_decide (name = "script") || bool_decide (name = "style")
  || bool_decide (name = "textarea") || bool_decide (name = "title").

(** Literal HTML the engine copies as it is and after which an action
    stands in element content: text without [<], and tags made of a
    name only ([<p>], [</p>]) that are not special. *)
Fixpoint contentAfter (c : context) (s : string) : option context :=
  match s with
  | EmptyString => Some c
  | String x rest =>
      match c with
      | stateText =>
          if isByte 60 x then contentAfter (stateOpen false) rest
          else contentAfter stateText rest
      | stateOpen slash =>
          if isAlpha x
          then contentAfter (stateName (String (lower x) EmptyString)) rest
          else if isByte 47 x && negb slash
               then contentAfter (stateOpen true) rest
               else None
      | stateName name =>
          if isAlpha x || ((48 <=? code x)%N && (code x <=? 57)%N)
          then contentAfter (stateName (name +:+ String (lower x) EmptyString)) rest
          else if isByte 62 x && negb (special name)
               then contentAfter stateText rest
               else None
      end
  end.

(** Every literal of the template is such HTML. *)
Definition elementContent (nodes : list node) : bool :=
  forallb (λ n, match n with
                | Text s => match contentAfter stateText s with
                          | Some stateText => true
                          | _ => false
                          end
                | Field _ => true
                end) nodes.



(** The text a reader of HTML gets back from the character references
    [htmlEscape] writes. *)
Fixpoint htmlUnescape (s : string) : string :=
  match s with
  | EmptyString => EmptyString
  | String a rest =>
      if isByte 38 a then
        match rest with
        | String b (String c (String d rest3)) =>
            if isByte 108 b && isByte 116 c && isByte 59 d
            then String (ascii_of_N 60) (htmlUnescape rest3)
            else if isByte 103 b && isByte 116 c && isByte 59 d
            then String (ascii_of_N 62) (htmlUnescape rest3)
            else
              match rest3 with
              | String e rest4 =>
                  if isByte 97 b && isByte 109 c && isByte 112 d && isByte 59 e
                  then String (ascii_of_N 38) (htmlUnescape rest4)
                  else if isByte 35 b && isByte 51 c && isByte 52 d && isByte 59 e
                  then String (ascii_of_N 34) (htmlUnescape rest4)
                  else if isByte 35 b && isByte 51 c && isByte 57 d && isByte 59 e
                  then String (ascii_of_N 39) (htmlUnescape rest4)
                  else if isByte 35 b && isByte 52 c && isByte 51 d && isByte 59 e
                  then String (ascii_of_N 43) (htmlUnescape rest4)
                  else String a (htmlUnescape rest)
              | EmptyString => String a (htmlUnescape rest)
              end
        | _ => String a (htmlUnescape rest)
        end
      else String a (htmlUnescape rest)
  end.

(** No NUL byte, for which HTML has no character reference. *)
Fixpoint nulFree (s : string) : bool :=
  match s with
  | EmptyString => true
  | String c rest => negb (isByte 0 c) && nulFree rest
  end.


(** The value of a field chain in the context, none when it fails. *)
Definition valueOf (data : gmap string Value) (ident : list string) : option Value :=
  match evalFieldChain (Some (VMap data)) ident with
  | Done v => v
  | Failed _ => None
  end.


(** A template with each action replaced by the print of its value. *)
Fixpoint rendering (print : option Value → string) (nodes : list node)
    (data : gmap string Value) : string :=
  match nodes with
  | [] => EmptyString
  | Text s :: rest => s +:+ rendering print rest data
  | Field ident :: rest => print (valueOf data ident) +:+ rendering print rest data
  end.



(** A parsed template: the nodes of a template of the fragment, or a
    template of the library. *)
Inductive template (T : Type) :=
| Nodes (nodes : list node)
| Beyond (t : T).
Arguments Nodes {T} nodes.
Arguments Beyond {T} t.

Section Engines.

(** The library on the templates outside the fragment. *)
Context {HTemplate TTemplate : Type}.
Variable html_library_Parse : string → string → option HTemplate * option error.
Variable text_library_Parse : string → string → option TTemplate * option error.
Variable html_library_Execute : HTemplate → gmap string Value → string * option error.
Variable text_library_Execute : TTemplate → gmap string Value → string * option error.

(** [fmt.Sprint] on a float64, a slice or a map. *)
Variable Sprint : Value → string.

Definition unclosed (name : string) : error :=
  "template: " +:+ name +:+ ": parse error".

(** [ttemplate.New(name).Parse(src)]: the template, or nil and an
    error. *)
Definition text_Parse (name src : string)
  : option (template TTemplate) * option error :=
  match read src with
  | Parsed nodes => (Some (Nodes nodes), None)
  | Unclosed => (None, Some (unclosed name))
  | Outside =>
      let '(t, err) := text_library_Parse name src in (Beyond <$> t, err)
  end.

(** [htemplate.New(name).Parse(src)]: it parses as [text/template]
    does. A template of the fragment is kept as its nodes when all its
    actions stand in element content; the escapers of the other places
    (attributes, scripts, styles, URLs) are the library's. *)
Definition html_Parse (name src : string)
  : option (template HTemplate) * option error :=
  match read src with
  | Parsed nodes =>
      if elementContent nodes then (Some (Nodes nodes), None)
      else let '(t, err) := html_library_Parse name src in (Beyond <$> t, err)
  | Unclosed => (None, Some (unclosed name))
  | Outside =>
      let '(t, err) := html_library_Parse name src in (Beyond <$> t, err)
  end.

(** What [text/template] prints for a value. *)
Definition printValue (v : option Value) : string :=
  match v with
  | None | Some VNil => "<no value>"
  | Some (VString s) => s
  | Some (VBool true) => "true"
  | Some (VBool false) => "false"
  | Some v => Sprint v
  end.

(** What [html/template] makes of a value before escaping it
    ([stringify]); nil is skipped. *)
Definition stringify (v : option Value) : string :=
  match v with
  | None | Some VNil => ""
  | Some (VString s) => s
  | Some (VBool true) => "true"
  | Some (VBool false) => "false"
  | Some v => Sprint v
  end.

(** The nodes in order, each value printed by [print]; the output
    written before an error stays in the buffer. *)
Fixpoint walk (print : option Value → string) (nodes : list node)
    (data : gmap string Value) : string * option error :=
  match nodes with
  | [] => (EmptyString, None)
  | Text s :: rest =>
      let '(out, err) := walk print rest data in (s +:+ out, err)
  | Field ident :: rest =>
      match evalFieldChain (Some (VMap data)) ident with
      | Failed err => (EmptyString, Some ("template: executing: " +:+ err))
      | Done v =>
          let '(out, err) := walk print rest data in
          (print v +:+ out, err)
      end
  end.

(** [text/template]'s [Execute]. *)
Definition text_Execute (t : template TTemplate) (data : gmap string Value)
  : string * option error :=
  match t with
  | Nodes nodes => walk printValue nodes data
  | Beyond t => text_library_Execute t data
  end.

(** [html/template]'s [Execute]: on the nodes [html_Parse] keeps, whose
    actions all stand in element content, the escaper is [htmlEscape]. *)
Definition html_Execute (t : template HTemplate) (data : gmap string Value)
  : string * option error :=
  match t with
  | Nodes nodes => walk (λ v, htmlEscape (stringify v)) nodes data
  | Beyond t => html_library_Execute t data
  end.

End Engines.

End template.

(** ** Header encoding ([mime.QEncoding], as gomail uses it)

    [gomail.NewMessage] makes a message whose charset is UTF-8 and whose
    header encoder is [mime.QEncoding]; its [encodeString(value)] is
    [mime.QEncoding.Encode("UTF-8", value)]: the value itself when it
    needs no encoding, otherwise one or more encoded words of RFC 2047. *)

Module mime.

Definition code (c : ascii) : N := N_of_ascii c.

(** The test of [needsEncoding] on one character: below the space and
    not the tab, or above the tilde. *)
Definition special (c : ascii) : bool :=
  ((code c <? 32)%N || (126 <? code c)%N) && negb (code c =? 9)%N.

(** [needsEncoding]. The loop of the library ranges over the runes of
    [s]; a rune is below 128 exactly when it is a byte of [s] below 128,
    and every other rune is above the tilde as every other byte is, so
    the test is made byte by byte. *)
Fixpoint needsEncoding (s : string) : bool :=
  match s with
  | EmptyString => false
  | String c rest => special c || needsEncoding rest
  end.

(** [upperhex] at a digit below 16. *)
Definition upperhex (n : N) : ascii :=
  if (n <? 10)%N then ascii_of_N (48 + n) else ascii_of_N (55 + n).

(** None of [=], [?] and [_]. *)
Definition unreserved (b : ascii) : bool :=
  negb (code b =? 61)%N && negb (code b =? 63)%N && negb (code b =? 95)%N.

(** [writeQString] on one byte: the space as an underscore, a printable
    byte other than [=], [?] and [_] as it is, any other byte as [=XX]. *)
Definition writeQByte (b : ascii) : string :=
  if (code b =? 32)%N then "_"
  else if (33 <=? code b)%N && (code b <=? 126)%N && unreserved b
       then String b EmptyString
  else String (ascii_of_N 61)
         (String (upperhex (code b / 16))
            (String (upperhex (code b mod 16)) EmptyString)).

Definition between (lo hi : N) (c : ascii) : bool :=
  (lo <=? code c)%N && (code c <=? hi)%N.

(** The width [utf8.DecodeRuneInString] reports for the rune [s] starts
    with: the length of a well-formed sequence, and 1 for a byte that
    starts none. *)
Definition runeWidth (s : string) : nat :=
  match s with
  | EmptyString => 0
  | String s0 rest =>
      let b := code s0 in
      if (b <? 194)%N then 1
      else if (b <? 224)%N then
        match rest with
        | String s1 _ => if between 128 191 s1 then 2 else 1
        | _ => 1
        end
      else if (b <? 240)%N then
        let '(lo, hi) :=
          if (b =? 224)%N then (160, 191)%N
          else if (b =? 237)%N then (128, 159)%N
          else (128, 191)%N in
        match rest with
        | String s1 (String s2 _) =>
            if between lo hi s1 && between 128 191 s2 then 3 else 1
        | _ => 1
        end
      else if (b <? 245)%N then
        let '(lo, hi) :=
          if (b =? 240)%N then (144, 191)%N
          else if (b =? 244)%N then (128, 143)%N
          else (128, 191)%N in
        match rest with
        | String s1 (String s2 (String s3 _)) =>
            if between lo hi s1 && between 128 191 s2 && between 128 191 s3
            then 4 else 1
        | _ => 1
        end
      else 1
  end.

(** [maxEncodedWordLen - len("=?UTF-8?q?") - len("?=")] *)
Definition maxContentLen : nat := 75 - 10 - 2.

(** [openWord] for the charset UTF-8 and the Q encoding, and what
    [splitWord] writes: the end of a word, a space, the start of the
    next. *)
Definition openWord : string := "=?UTF-8?q?".

Definition closeWord : string := "?=".

Definition splitWord : string := closeWord +:+ " " +:+ openWord.

(** [qEncode] for the charset UTF-8. The loop of the library goes rune
    by rune: it starts a new word when the encoded rune would take the
    word past [maxContentLen], then writes the bytes of the rune. Here
    the bytes of a rune after its first are counted down in [pending];
    [currentLen] is the length of the word so far. *)
Fixpoint qEncode (pending currentLen : nat) (s : string) : string :=
  match s with
  | EmptyString => EmptyString
  | String b rest =>
      match pending with
      | S pending => writeQByte b +:+ qEncode pending currentLen rest
      | O =>
          let '(runeLen, encLen) :=
            if (32 <=? code b)%N && (code b <=? 126)%N && unreserved b
            then (1, 1)
            else (runeWidth s, 3 * runeWidth s) in
          if decide (maxContentLen < currentLen + encLen)
          then splitWord +:+ writeQByte b +:+ qEncode (runeLen - 1) encLen rest
          else writeQByte b +:+ qEncode (runeLen - 1) (currentLen + encLen) rest
      end
  end.

(** [encodeWord] *)
Definition encodeWord (s : string) : string :=
  openWord +:+ qEncode 0 0 s +:+ closeWord.

(** [QEncoding.Encode("UTF-8", s)] *)
Definition Encode (s : string) : string :=
  if needsEncoding s then encodeWord s else s.

End mime.

(** ** In-memory collaborators

    A world to run the handler in: environment variables, template
    buckets, and a mail server that is up or down and keeps what it
    accepted. *)

Module fake.

Record World := {
  environ : gmap string string;
  buckets : gmap string (gmap string string);
  smtpUp : bool;
  outbox : list Message
}.

(** A decimal integer with an optional sign, as [strconv.ParseInt]
    reads it. *)
Definition parseInt (s : string) : option Z :=
  let '(negative, ds) :=
    match s with
    | String c rest =>
        if json.isByte 45 c then (true, rest)
        else if json.isByte 43 c then (false, rest)
        else (false, s)
    | EmptyString => (false, s)
    end in
  match json.digits ds with
  | (String d more, EmptyString) =>
      let n := Z.of_N (json.numeral (String d more) 0) in
      let z := if negative then (- n)%Z else n in
      if (-2147483648 <=? z)%Z && (z <=? 2147483647)%Z then Some z else None
  | _ => None
  end.

(** [env.Parse] on [config]: each field from the variable its [env] tag
    names; an unset variable leaves the field, but for [SMTP_PORT],
    whose [envDefault] is 465. *)
Definition env_Parse (w : World) (cfg : config) : config * option error :=
  let get (name old : string) := default old (environ w !! name) in
  let bucket := get "TEMPLATE_BUCKET" (Bucket cfg) in
  let host := get "SMTP_HOST" (SMTPHost cfg) in
  match parseInt (get "SMTP_PORT" "465") with
  | None =>
      ({| Bucket := bucket; SMTPHost := host; SMTPPort := SMTPPort cfg;
          SMTPUserName := SMTPUserName cfg; SMTPPassword := SMTPPassword cfg |},
       Some "env: parse error on field SMTPPort of type int")
  | Some port =>
      ({| Bucket := bucket; SMTPHost := host; SMTPPort := port;
          SMTPUserName := get "SMTP_USER" (SMTPUserName cfg);
          SMTPPassword := get "SMTP_PASS" (SMTPPassword cfg) |}, None)
  end.

(** Modelled from the spec: the storage connector returns the content
    of the named template or fails the record; here a connector is the
    name of its bucket, and a template that is not there ends the
    process. *)
Definition NewS3 (bucket : string) : string := bucket.

Definition GetTemplateContent (connector name : string) (w : World)
  : outcome string * World :=
  match buckets w !! connector ≫= (λ files, files !! name) with
  | Some text => (Ok text, w)
  | None => (Exit 1, w)
  end.

(** [FormatAddress] for an empty name, and for a name of printable
    ASCII, which is quoted. *)
Fixpoint quoted (name : string) : string :=
  match name with
  | EmptyString => EmptyString
  | String c rest =>
      if json.isByte 92 c || json.isByte 34 c
      then String (ascii_of_N 92) (String c (quoted rest))
      else String c (quoted rest)
  end.

Definition FormatAddress (address name : string) : string :=
  match name with
  | EmptyString => address
  | _ =>
      String (ascii_of_N 34) (quoted name)
        +:+ String (ascii_of_N 34) (" <" +:+ address +:+ ">")
  end.

Definition DialAndSend (d : Dialer) (m : Message) (w : World)
  : option error * World :=
  if smtpUp w
  then (None, {| environ := environ w; buckets := buckets w;
                 smtpUp := smtpUp w; outbox := outbox w ++ [m] |})
  else (Some ("dial tcp " +:+ Host d +:+ ": connection refused"), w).

(** Values of the context other than strings and booleans are printed
    by [fmt]; the runs below have none. *)
Definition Sprint (v : Value) : string := EmptyString.

(** The engines of this world know the fragment only: the buckets
    below hold no template outside it, and one that did would be
    refused. *)
Definition library_Parse (name src : string) : option Empty_set * option error :=
  (None, Some ("template: " +:+ name +:+ ": not supported")).

Definition library_Execute (t : Empty_set) (data : gmap string Value)
  : string * option error :=
  match t with end.

Definition html_Parse := template.html_Parse library_Parse.

Definition text_Parse := template.text_Parse library_Parse.

Definition html_Execute := template.html_Execute library_Execute Sprint.

Definition text_Execute := template.text_Execute library_Execute Sprint.

(** The header encoding of gomail. *)
Definition encodeString : string → string := mime.Encode.

(** The handler over these collaborators and the reference decoder and
    engines. *)
Definition buildMailContent :=
  buildMailContent (World := World) GetTemplateContent html_Parse text_Parse
    html_Execute text_Execute FormatAddress encodeString.

Definition handleRecord :=
  handleRecord (World := World) json.Unmarshal NewS3 GetTemplateContent
    html_Parse text_Parse html_Execute text_Execute
    FormatAddress encodeString DialAndSend.

Definition HandleRequest :=
  HandleRequest env_Parse json.Unmarshal NewS3 GetTemplateContent
    html_Parse text_Parse html_Execute text_Execute
    FormatAddress encodeString DialAndSend.

(** A bucket with a welcome template, and a mail server that is up. *)
Definition templates : gmap string string :=
  <["welcome.html.template" := "<h1>Welcome {{.name}}</h1>"]>
    (<["welcome.txt.template" := "Welcome {{.name}}"]>
       (<[".html.template" := "<p>Hello</p>"]>
          (<[".txt.template" := "Hello"]>
             (<["broken.html.template" := "<p>{{.name</p>"]>
                (<["broken.txt.template" := "Hello {{.name}}"]>
                   (<["nested.html.template" := "<p>Hello</p>"]>
                      (<["nested.txt.template" := "Hello {{.name.first}}"]> ∅))))))).

Definition w0 : World :=
  {| environ := <["TEMPLATE_BUCKET" := "mail-templates"]>
                  (<["SMTP_HOST" := "smtp.example.org"]> ∅);
     buckets := <["mail-templates" := templates]> ∅;
     smtpUp := true;
     outbox := [] |}.

Definition start : state World := {| world := w0; log := [] |}.

Definition record (body : string) : SQSMessage :=
  {| MessageId := "1"; Body := body |}.

(** A JSON string literal for a text without quotes and backslashes,
    and a member of an object. *)
Definition str (s : string) : string :=
  String (ascii_of_N 34) (s +:+ String (ascii_of_N 34) EmptyString).

Definition member (name value : string) : string :=
  str name +:+ ":" +:+ value.

(** Requests: one with a context, one without the field the welcome
    templates refer to, one for a template that does not parse, one
    whose context holds a string where the template expects a map. *)
Definition welcome : string :=
  "{" +:+ member "template_name" (str "welcome") +:+ ","
      +:+ member "to_address" (str "tom@example.org") +:+ ","
      +:+ member "subject" (str "Welcome") +:+ ","
      +:+ member "reply_to" (str "noreply@example.org") +:+ ","
      +:+ member "cc" ("[" +:+ str "a@example.org" +:+ "," +:+ str "b@example.org" +:+ "]") +:+ ","
      +:+ member "template_context"
            ("{" +:+ member "name" (str "<b>Tom & Jerry</b>") +:+ "}")
      +:+ "}".

Definition welcomeNoContext : string :=
  "{" +:+ member "template_name" (str "welcome") +:+ "}".

Definition broken : string :=
  "{" +:+ member "template_name" (str "broken") +:+ ","
      +:+ member "template_context" ("{" +:+ member "name" (str "Tom") +:+ "}")
      +:+ "}".

Definition nested : string :=
  "{" +:+ member "template_name" (str "nested") +:+ ","
      +:+ member "template_context" ("{" +:+ member "name" (str "Tom") +:+ "}")
      +:+ "}".

(** A request whose subject has a letter outside ASCII. *)
Definition accented : string :=
  "{" +:+ member "template_name" (str "welcome") +:+ ","
      +:+ member "to_address" (str "tom@example.org") +:+ ","
      +:+ member "subject" (str "Caf\u00e9") +:+ ","
      +:+ member "reply_to" (str "noreply@example.org") +:+ ","
      +:+ member "template_context" ("{" +:+ member "name" (str "Tom") +:+ "}")
      +:+ "}".

Definition malformed : string := "{" +:+ member "template_name" (str "welcome").

Definition unknownFields : string :=
  "{" +:+ member "foo" "1" +:+ "," +:+ member "address" (str "x") +:+ "}".

Definition membersOf (body : string) : list (string * json.JSON) :=
  match json.scan body with
  | Some (json.JObject members) => members
  | _ => []
  end.

Definition decoded (body : string) : mailMessage :=
  (json.Unmarshal body mailMessage_zero).1.

Definition batch (bodies : list string) : SQSEvent :=
  {| Records := record <$> bodies |}.

(** The configuration and the dialer of a run in [w0]. *)
Definition cfg0 : config := (env_Parse w0 config_zero).1.

Definition dialer0 : Dialer :=
  NewDialer (SMTPHost cfg0) (SMTPPort cfg0) (SMTPUserName cfg0) (SMTPPassword cfg0).

(** What a run left in the outbox: the first message, and of each
    message the From, To and Reply-To headers and the parts. *)
Definition firstSent (st : state World) : Message :=
  default NewMessage (head (outbox (world st))).

Definition addresses (st : state World)
  : list (list string * list string * list string) :=
  (λ m, (GetHeader "From" m, GetHeader "To" m, GetHeader "Reply-To" m))
    <$> outbox (world st).

Definition bodies (st : state World) : list (list part) :=
  parts <$> outbox (world st).

End fake.

(** ** More on logs and outcomes *)

Definition isEnvParse (e : event) : bool :=
  match e with EnvParse => true | _ => false end.

Definition isNewS3 (e : event) : bool :=
  match e with NewS3 _ => true | _ => false end.

(** The messages a log shows as handed to the transport, in order. *)
Fixpoint sends (l : list event) : list Message :=
  match l with
  | [] => []
  | Send m :: rest => m :: sends rest
  | _ :: rest => sends rest
  end.

(** [msg] is the message composed from the request the record [r]
    decodes to without error. *)
Definition dispatchOf
    (json_Unmarshal : string → mailMessage → mailMessage * option error)
    (FormatAddress : string → string → string)
    (encodeString : string → string)
    (r : SQSMessage) (msg : Message) : Prop :=
  ∃ q, json_Unmarshal (Body r) mailMessage_zero = (q, None)
       ∧ composed FormatAddress encodeString q msg.

(** The steps of a record after its decoding, in the order of the
    source: the connector, the HTML template fetched and parsed, the
    text template fetched and parsed, the two executions, the
    dispatch. *)
Definition steps (cfg : config) (q : mailMessage) (hsrc tsrc : string)
    (msg : Message) : list event :=
  [NewS3 (Bucket cfg);
   GetTemplate (Template q +:+ ".html.template"); ParseTemplate HTML hsrc;
   GetTemplate (Template q +:+ ".txt.template"); ParseTemplate TXT tsrc;
   ExecuteTemplate HTML; ExecuteTemplate TXT; Send msg].

(** The line the handler writes when a body does not decode. *)
Definition decodeFailure (err : error) (body : string) : string :=
  "Unable to unmarshal JSON for reason: " +:+ err +:+ nl
    +:+ "Body: " +:+ body +:+ nl.

(** The log of the loop cut record by record. [P r done seg] says what
    the handling of [r] logged and whether [r] was handled to the end;
    the loop goes on to the next record only after a record that was,
    and the flag of the whole tells whether every record was. *)
Inductive segmented (P : SQSMessage → bool → list event → Prop)
  : list SQSMessage → bool → list (list event) → Prop :=
| segmented_end : segmented P [] true []
| segmented_next r records seg segs done :
    P r true seg →
    segmented P records done segs →
    segmented P (r :: records) done (seg :: segs)
| segmented_stop r records seg :
    P r false seg →
    segmented P (r :: records) false [seg].

(** What the log of a record may hold after the decoding of the request
    [q] and the making of the connector: fetches of the two templates
    [q] names, parsings and executions, lines on standard error, and
    the dispatch of a message composed from [q]; no other decoding, and
    no other connector. *)
Definition downstream (FormatAddress : string → string → string)
    (encodeString : string → string) (q : mailMessage) (e : event) : Prop :=
  match e with
  | GetTemplate name =>
      name = Template q +:+ ".html.template"
      ∨ name = Template q +:+ ".txt.template"
  | ParseTemplate _ _ | ExecuteTemplate _ | Stderr _ => True
  | Send msg => composed FormatAddress encodeString q msg
  | EnvParse | Unmarshal _ | NewS3 _ => False
  end.

(** The log of a record by what its decoding gave. With an error: the
    decoding and the line on standard error, nothing else, and the
    record is not handled to the end. Without: the decoding, the
    connector, and then only what is downstream of the decoded
    request. *)
Definition decodedFirst
    (json_Unmarshal : string → mailMessage → mailMessage * option error)
    (FormatAddress : string → string → string)
    (encodeString : string → string)
    (cfg : config) (r : SQSMessage) (done : bool) (seg : list event) : Prop :=
  match json_Unmarshal (Body r) mailMessage_zero with
  | (_, Some err) =>
      done = false
      ∧ seg = [Unmarshal (Body r); Stderr (decodeFailure err (Body r))]
  | (q, None) =>
      ∃ l, seg = Unmarshal (Body r) :: NewS3 (Bucket cfg) :: l
           ∧ Forall (downstream FormatAddress encodeString q) l
  end.

(** The log of a record as a run of its steps: the decoding, then the
    first [n] of the steps in their order, then at most one line on
    standard error. A step is taken only when the decoding reported no
    error, and the record is handled to the end exactly when all steps
    were taken and nothing was written to standard error. *)
Definition inOrder
    (json_Unmarshal : string → mailMessage → mailMessage * option error)
    (cfg : config) (r : SQSMessage) (done : bool) (seg : list event) : Prop :=
  ∃ n hsrc tsrc msg tail,
    seg = Unmarshal (Body r)
          :: take n (steps cfg (json_Unmarshal (Body r) mailMessage_zero).1
                       hsrc tsrc msg)
          ++ tail
    ∧ (tail = [] ∨ ∃ line, tail = [Stderr line])
    ∧ (0 < n → (json_Unmarshal (Body r) mailMessage_zero).2 = None)
    ∧ (done = true ↔ 8 ≤ n ∧ tail = []).

(** A computation that does not look at the log: started with another
    log in the same world it ends the same way, in the same world,
    having added the same events. *)
Definition insensitive {World A} (c : M World A) : Prop :=
  ∀ (st : state World) (L : list event),
    ∃ l, log (c st).2 = log st ++ l
         ∧ c {| world := world st; log := L |}
           = ((c st).1, {| world := world (c st).2; log := L ++ l |}).

(** How a run ended when it did not return: the exit status or the
    panic. *)
Definition failure {A} (o : outcome A) : option (Z + string) :=
  match o with
  | Ok _ => None
  | Exit code => Some (inl code)
  | Panic what => Some (inr what)
  end.


(** ** More worlds *)

Module scenario.

(** [w0] with a port that is no number. *)
Definition badPort : state fake.World :=
  {| world := {| fake.environ := <["SMTP_PORT" := "smtps"]> (fake.environ fake.w0);
                 fake.buckets := fake.buckets fake.w0;
                 fake.smtpUp := true;
                 fake.outbox := [] |};
     log := [] |}.

(** [w0] with the mail server down. *)
Definition down : state fake.World :=
  {| world := {| fake.environ := fake.environ fake.w0;
                 fake.buckets := fake.buckets fake.w0;
                 fake.smtpUp := false;
                 fake.outbox := [] |};
     log := [] |}.

(** [w0] with an empty bucket. *)
Definition noTemplates : state fake.World :=
  {| world := {| fake.environ := fake.environ fake.w0;
                 fake.buckets := <["mail-templates" := ∅]> ∅;
                 fake.smtpUp := true;
                 fake.outbox := [] |};
     log := [] |}.

(** The state in which the composer starts for a record handled from
    [st]. *)
Definition decoded (st : state fake.World) (body : string) : state fake.World :=
  {| world := world st;
     log := log st ++ [Unmarshal body; NewS3 (Bucket fake.cfg0)] |}.

(** What the composer makes of the request in [body] when the record
    is handled from [st], and the message it returns. *)
Definition built (st : state fake.World) (body : string)
  : outcome Message * state fake.World :=
  fake.buildMailContent (fake.NewS3 (Bucket fake.cfg0)) (fake.decoded body)
    (decoded st body).

Definition message (st : state fake.World) (body : string) : Message :=
  match (built st body).1 with
  | Ok m => m
  | _ => NewMessage
  end.

End scenario.

(** * Properties *)

(** ** The batch processor and the composer, for any collaborators *)

Lemma append_cons (x : ascii) (a b : string) :
  String x a +:+ b = String x (a +:+ b).
Proof. done. Qed.

Lemma append_assoc (a b c : string) : (a +:+ b) +:+ c = a +:+ (b +:+ c).
Proof.
  induction a as [|x a IH]; [done|].
  rewrite !append_cons. by rewrite IH.
Qed.

Lemma append_nil_r (a : string) : a +:+ "" = a.
Proof. induction a as [|x a IH]; [done|]. rewrite append_cons. by rewrite IH. Qed.

Lemma calls_app p l1 l2 : calls p (l1 ++ l2) = calls p l1 + calls p l2.
Proof. unfold calls. by rewrite List.filter_app, length_app. Qed.

Lemma trace_app {World} (st st' : state World) l :
  log st' = log st ++ l → trace st st' = l.
Proof. unfold trace. intros ->. by rewrite drop_app_length. Qed.

(** Follow a run of the composer or of the record handler down each of
    its paths. *)
Ltac run H :=
  unfold buildMailContent, handleRecord, fetch, parseHTML, parseTXT,
    executeHTML, executeTXT, send, lift, bind, ret, emit, panic,
    exitErrorf in H;
  simpl in H;
  repeat (case_match; simplify_eq/=).

(** A log that is the decoding, the first [n] steps and a tail. *)
Ltac steps_at n :=
  exists n; do 4 eexists;
  split; [rewrite <- ?app_assoc; simpl; reflexivity|];
  split; [first [by left | right; eexists; reflexivity]|];
  split;
    [first [lia
           | split; [done|]; unfold decodeFailure; by rewrite ?append_assoc]|];
  split;
    [split; [done|intros [? ?]; first [lia | done]]
    | intros ?;
      first [ lia
            | unfold composed, SetHeader, SetAddressHeader; simpl;
              repeat split; try (by simplify_map_eq); eauto ] ].

Ltac logs := rewrite <- ?app_assoc; simpl; try reflexivity.

Section ProgramFacts.

Context {World HTemplate TTemplate StorageConnector : Type}.
Variable env_Parse : World → config → config * option error.
Variable json_Unmarshal : string → mailMessage → mailMessage * option error.
Variable storageconnector_NewS3 : string → StorageConnector.
Variable GetTemplateContent :
  StorageConnector → string → World → outcome string * World.
Variable html_Parse : string → string → option HTemplate * option error.
Variable text_Parse : string → string → option TTemplate * option error.
Variable html_Execute : HTemplate → gmap string Value → string * option error.
Variable text_Execute : TTemplate → gmap string Value → string * option error.
Variable FormatAddress : string → string → string.
Variable encodeString : string → string.
Variable DialAndSend : Dialer → Message → World → option error * World.

Local Abbreviation build :=
  (buildMailContent GetTemplateContent html_Parse text_Parse
                    html_Execute text_Execute FormatAddress encodeString).
Local Abbreviation composed := (composed FormatAddress encodeString).
Local Abbreviation handle :=
  (handleRecord json_Unmarshal storageconnector_NewS3 GetTemplateContent
                html_Parse text_Parse html_Execute text_Execute
                FormatAddress encodeString DialAndSend).
Local Abbreviation Handle :=
  (HandleRequest env_Parse json_Unmarshal storageconnector_NewS3
                 GetTemplateContent html_Parse text_Parse html_Execute
                 text_Execute FormatAddress encodeString DialAndSend).

(** *** The address loop *)

Lemma formatInto_spec (src : list string) :
  ∀ (i : nat) (dst : list string),
    i + length src ≤ length dst →
    formatInto FormatAddress i src dst
    = Ok (take i dst ++ ((λ a, FormatAddress a "") <$> src)
                 ++ drop (i + length src) dst).
Proof.
  induction src as [|a src IH]; intros i dst Hlen; simpl in *.
  - rewrite Nat.add_0_r, take_drop. done.
  - destruct (decide (i < length dst)) as [Hi|Hi]; [|lia].
    rewrite IH by (rewrite length_insert; lia).
    f_equal.
    rewrite drop_insert_lt by lia.
    rewrite (take_S_r _ i (FormatAddress a ""))
      by (apply list_lookup_insert_eq; lia).
    rewrite take_insert_ge by lia.
    rewrite <- app_assoc. simpl.
    by replace (S (i + length src)) with (i + S (length src)) by lia.
Qed.

Lemma formatAll_map (src : list string) :
  formatAll FormatAddress src = Ok (((λ a, FormatAddress a "") <$> src)).
Proof.
  unfold formatAll. rewrite formatInto_spec by (rewrite length_replicate; lia).
  simpl. rewrite drop_ge by (rewrite length_replicate; lia).
  by rewrite app_nil_r.
Qed.

(** *** One record *)

Lemma build_composed sc q st msg st' :
  build sc q st = (Ok msg, st') → composed q msg.
Proof.
  intros H. unfold buildMailContent in H. rewrite !formatAll_map in H.
  run H. unfold composed, SetHeader, SetAddressHeader; simpl.
  repeat split; try (by simplify_map_eq). eauto.
Qed.

(** What handling one record adds to the log: the decoding first, then
    no other decoding, at most one rendering of each body and at most
    one dispatch; a record that is handled to the end is dispatched and
    nothing is written to standard error. *)
Lemma handle_events cfg d r st o st' :
  handle cfg d r st = (o, st') →
  ∃ l, log st' = log st ++ Unmarshal (Body r) :: l
       ∧ calls isUnmarshal l = 0
       ∧ calls isSend l ≤ 1
       ∧ calls isExecute l ≤ 2
       ∧ calls isGetTemplate l ≤ 2
       ∧ (returned o = true →
          o = Ok () ∧ calls isSend l = 1 ∧ calls isStderr l = 0).
Proof.
  intros H. unfold handleRecord, buildMailContent in H.
  rewrite !formatAll_map in H.
  run H; (eexists; split; [logs|]); vm_compute; repeat split; (lia || done).
Qed.

(** Every message dispatched for a record is the one composed from the
    request the record decodes to, without a decoding error. *)
Lemma handle_sends cfg d r st o st' msg :
  handle cfg d r st = (o, st') →
  Send msg ∈ trace st st' →
  ∃ q, json_Unmarshal (Body r) mailMessage_zero = (q, None) ∧ composed q msg.
Proof.
  intros H Hin. unfold handleRecord, buildMailContent in H.
  rewrite !formatAll_map in H.
  run H; unfold trace in Hin; simpl in Hin;
    rewrite <- ?app_assoc in Hin; rewrite drop_app_length in Hin;
    repeat (apply elem_of_cons in Hin as [Hin|Hin]; simplify_eq);
    try (by apply elem_of_nil in Hin).
  all: exists (json_Unmarshal (Body r) mailMessage_zero).1; split;
    [ by destruct (json_Unmarshal (Body r) mailMessage_zero) as [? []];
        simplify_eq/=
    | unfold composed, SetHeader, SetAddressHeader; simpl;
      repeat split; try (by simplify_map_eq); eauto ].
Qed.

(** Once a record is decoded without error, the connector is made and
    the HTML template of the request is fetched. *)
Lemma handle_proceeds cfg d r q st o st' :
  json_Unmarshal (Body r) mailMessage_zero = (q, None) →
  handle cfg d r st = (o, st') →
  ∃ l, trace st st' = [Unmarshal (Body r); NewS3 (Bucket cfg);
                       GetTemplate (Template q +:+ ".html.template")] ++ l.
Proof.
  intros Hq H. unfold handleRecord, buildMailContent in H.
  rewrite !formatAll_map, Hq in H.
  run H; eexists; apply trace_app; simpl; logs.
Qed.

(** *** The loop over the records *)

Lemma forRange_app {A} (l1 l2 : list A) (body : A → M World unit) st :
  forRange (l1 ++ l2) body st =
    match forRange l1 body st with
    | (Ok _, st1) => forRange l2 body st1
    | (Exit code, st1) => (Exit code, st1)
    | (Panic what, st1) => (Panic what, st1)
    end.
Proof.
  revert st. induction l1 as [|x l1 IH]; intros st; simpl; [done|].
  unfold bind. destruct (body x st) as [[[]|code|what] st1]; auto.
Qed.


Lemma handle_extends cfg d r st o st' :
  handle cfg d r st = (o, st') → ∃ l, log st' = log st ++ l.
Proof.
  intros H. destruct (handle_events _ _ _ _ _ _ H) as (l & Hl & _). eauto.
Qed.

Lemma forRange_extends cfg d (records : list SQSMessage) :
  ∀ st o st',
    forRange records (handle cfg d) st = (o, st') → ∃ l, log st' = log st ++ l.
Proof.
  induction records as [|r records IH]; intros st o st' H; simpl in H.
  - unfold ret in H. simplify_eq. exists []. by rewrite app_nil_r.
  - unfold bind in H.
    destruct (handle cfg d r st) as [o1 st1] eqn:H1.
    destruct (handle_extends _ _ _ _ _ _ H1) as [l1 Hl1].
    destruct o1 as [[]|code|what]; simplify_eq/=; eauto.
    destruct (IH _ _ _ H) as [l Hl]. exists (l1 ++ l).
    by rewrite Hl, Hl1, <- app_assoc.
Qed.

(** Every message the loop dispatches is composed from the request one
    of its records decodes to. *)
Lemma forRange_sends cfg d (records : list SQSMessage) msg :
  ∀ st o st',
    forRange records (handle cfg d) st = (o, st') →
    Send msg ∈ trace st st' →
    ∃ r q, r ∈ records
           ∧ json_Unmarshal (Body r) mailMessage_zero = (q, None)
           ∧ composed q msg.
Proof.
  induction records as [|r records IH]; intros st o st' H Hin; simpl in H.
  - unfold ret in H. simplify_eq. unfold trace in Hin.
    rewrite drop_all in Hin. by apply elem_of_nil in Hin.
  - unfold bind in H.
    destruct (handle cfg d r st) as [o1 st1] eqn:H1.
    destruct (handle_extends _ _ _ _ _ _ H1) as [l1 Hl1].
    assert (Hhere : Send msg ∈ trace st st1 →
                    ∃ r0 q, r0 ∈ r :: records
                            ∧ json_Unmarshal (Body r0) mailMessage_zero = (q, None)
                            ∧ composed q msg).
    { intros Hin1. destruct (handle_sends _ _ _ _ _ _ _ H1 Hin1) as (q & Hq & Hc).
      exists r, q. split; [apply list_elem_of_here|done]. }
    destruct o1 as [[]|code|what]; simplify_eq/=; auto.
    destruct (forRange_extends _ _ _ _ _ _ H) as [l Hl].
    rewrite (trace_app st st' (l1 ++ l)) in Hin
      by (by rewrite Hl, Hl1, <- app_assoc).
    apply elem_of_app in Hin as [Hin|Hin].
    + apply Hhere. by rewrite (trace_app _ _ _ Hl1).
    + destruct (IH st1 o st' H) as (r0 & q & Hr0 & Hq & Hc).
      { by rewrite (trace_app _ _ _ Hl). }
      exists r0, q. split; [by apply list_elem_of_further|done].
Qed.

(** *** The handler *)

Lemma Handle_unfold (event : SQSEvent) st :
  Handle event st =
    let st0 := {| world := world st; log := log st ++ [EnvParse] |} in
    match env_Parse (world st) config_zero with
    | (_, Some err) =>
        exitErrorf ("Unable to parse configuration: " +:+ err +:+ nl) st0
    | (cfg, None) =>
        match forRange (Records event)
                (handle cfg (NewDialer (SMTPHost cfg) (SMTPPort cfg)
                                       (SMTPUserName cfg) (SMTPPassword cfg))) st0
        with
        | (Ok _, st1) => (Ok None, st1)
        | (Exit code, st1) => (Exit code, st1)
        | (Panic what, st1) => (Panic what, st1)
        end
    end.
Proof.
  unfold HandleRequest, loadConfig, bind, emit, ret; simpl.
  destruct (env_Parse (world st) config_zero) as [cfg [err|]]; simpl; [done|].
  by destruct (forRange _ _ _) as [[[]|code|what] st1].
Qed.



(** C2. Short circuit on a malformed body: when the decoder reports an
    error for a record, the handler logs the decoding and one line on
    standard error and exits; the world is as the records before left
    it, so no template was fetched or rendered and nothing was
    dispatched for that record. *)
Theorem decode_failure_short_circuits (pre post : list SQSMessage)
    (r : SQSMessage) (st st1 : state World) (v : option error)
    (q : mailMessage) (err : error) :
  Handle {| Records := pre |} st = (Ok v, st1) →
  json_Unmarshal (Body r) mailMessage_zero = (q, Some err) →
  Handle {| Records := pre ++ r :: post |} st
  = (Exit 1,
     {| world := world st1;
        log := log st1 ++
               [Unmarshal (Body r);
                Stderr ("Unable to unmarshal JSON for reason: " +:+ err +:+ nl
                        +:+ "Body: " +:+ Body r +:+ nl)] |}).
Proof.
  rewrite !Handle_unfold; simpl. intros Hpre Hq.
  destruct (env_Parse (world st) config_zero) as [cfg [e|]]; simpl in *; [done|].
  rewrite forRange_app.
  destruct (forRange pre _ _) as [[[]|code|what] st1']; simplify_eq/=.
  unfold bind, handleRecord, bind, emit, exitErrorf. simpl. rewrite Hq. simpl.
  by rewrite <- !app_assoc, !append_assoc.
Qed.

(** C8. Formatting a sequence of addresses gives a sequence of the same
    length, element [i] the formatted form of input element [i]; the
    empty sequence gives the empty sequence; no index is out of range.
    The Cc and Bcc headers of a composed message are these sequences,
    each address in its header encoding. *)
Theorem format_all_preserves_order (addresses : list string) :
  (∃ out, formatAll FormatAddress addresses = Ok out
          ∧ length out = length addresses
          ∧ ∀ i a, addresses !! i = Some a → out !! i = Some (FormatAddress a ""))
  ∧ formatAll FormatAddress [] = Ok []
  ∧ ∀ sc q (st : state World),
      match build sc q st with
      | (Ok msg, _) =>
          ∃ cc bcc,
            formatAll FormatAddress (CC q) = Ok cc
            ∧ formatAll FormatAddress (BCC q) = Ok bcc
            ∧ GetHeader "Cc" msg = encodeString <$> cc
            ∧ GetHeader "Bcc" msg = encodeString <$> bcc
      | _ => True
      end.
Proof.
  split; [|split].
  - exists (((λ a, FormatAddress a "") <$> addresses)).
    split; [apply formatAll_map|]. split; [by rewrite length_fmap|].
    intros i a Hi. by rewrite list_lookup_fmap, Hi.
  - done.
  - intros sc q st. destruct (build sc q st) as [[msg| |] st'] eqn:Hb; try done.
    destruct (build_composed _ _ _ _ _ Hb) as (_ & _ & _ & Hcc & Hbcc & _).
    eexists _, _. rewrite !formatAll_map. unfold GetHeader.
    by rewrite Hcc, Hbcc.
Qed.


(** The errors the handler meets end the process: a configuration that
    does not load, and a dispatch that fails. *)
Lemma config_error_exits (event : SQSEvent) (st : state World) cfg err :
  env_Parse (world st) config_zero = (cfg, Some err) →
  Handle event st
  = (Exit 1,
     {| world := world st;
        log := log st ++
               [EnvParse;
                Stderr ("Unable to parse configuration: " +:+ err +:+ nl +:+ nl)] |}).
Proof.
  intros H. rewrite Handle_unfold, H. unfold exitErrorf; simpl.
  by rewrite <- !app_assoc, !append_assoc.
Qed.


(** A template that does not parse leaves a nil pointer, the error
    of [Parse] is dropped, and [Execute] on the nil pointer panics:
    nothing is written to standard error. *)
Lemma parse_error_panics sc q (st : state World) hsrc tsrc w1 w2 :
  GetTemplateContent sc (Template q +:+ ".html.template") (world st) = (Ok hsrc, w1) →
  GetTemplateContent sc (Template q +:+ ".txt.template") w1 = (Ok tsrc, w2) →
  (html_Parse "htmlTemplate" hsrc).1 = None →
  build sc q st
  = (Panic nilDereference,
     {| world := w2;
        log := log st ++
               [GetTemplate (Template q +:+ ".html.template");
                ParseTemplate HTML hsrc;
                GetTemplate (Template q +:+ ".txt.template");
                ParseTemplate TXT tsrc;
                ExecuteTemplate HTML] |}).
Proof.
  intros Hh Ht Hp.
  unfold buildMailContent, fetch, parseHTML, parseTXT, executeHTML,
    bind, emit, ret, panic; simpl.
  rewrite Hh; simpl. rewrite Ht; simpl. rewrite Hp; simpl.
  by rewrite <- !app_assoc.
Qed.

(** *** The log, record by record *)

(** What handling one record logs: the decoding, some of the steps in
    their order, and at most one line on standard error. *)
Lemma handle_steps cfg d r (st : state World) :
  ∃ n hsrc tsrc msg tail,
    log (handle cfg d r st).2
    = log st ++ Unmarshal (Body r)
               :: take n (steps cfg (json_Unmarshal (Body r) mailMessage_zero).1
                            hsrc tsrc msg)
               ++ tail
    ∧ (tail = [] ∨ ∃ line, tail = [Stderr line])
    ∧ match (json_Unmarshal (Body r) mailMessage_zero).2 with
      | Some err => n = 0 ∧ tail = [Stderr (decodeFailure err (Body r))]
      | None => 0 < n
      end
    ∧ (returned (handle cfg d r st).1 = true ↔ 8 ≤ n ∧ tail = [])
    ∧ (8 ≤ n → composed (json_Unmarshal (Body r) mailMessage_zero).1 msg).
Proof.
  destruct (handle cfg d r st) as [o st'] eqn:H.
  unfold handleRecord, buildMailContent in H. rewrite !formatAll_map in H.
  run H.
  all: first
    [ solve [steps_at 8] | solve [steps_at 7] | solve [steps_at 6]
    | solve [steps_at 5] | solve [steps_at 4] | solve [steps_at 3]
    | solve [steps_at 2] | solve [steps_at 1] | solve [steps_at 0] ].
  Unshelve. all: first [exact EmptyString | exact NewMessage].
Qed.

(** The log of the loop is the logs of its records one after the
    other, and the loop goes on only after a record handled to the
    end. *)
Lemma forRange_segmented (P : SQSMessage → bool → list event → Prop) cfg d :
  (∀ r (st : state World),
      ∃ seg, log (handle cfg d r st).2 = log st ++ seg
             ∧ P r (returned (handle cfg d r st).1) seg) →
  ∀ records (st : state World),
    ∃ segs,
      log (forRange records (handle cfg d) st).2 = log st ++ concat segs
      ∧ segmented P records (returned (forRange records (handle cfg d) st).1) segs.
Proof.
  intros HP. induction records as [|r records IH]; intros st; simpl.
  - exists []. simpl. rewrite app_nil_r. split; [done|constructor].
  - unfold bind. destruct (HP r st) as (seg & Hseg & HPr).
    destruct (handle cfg d r st) as [[[]|code|what] st1]; simpl in *.
    + destruct (IH st1) as (segs & Hsegs & Hs). exists (seg :: segs). split.
      * rewrite Hsegs, Hseg. simpl. by rewrite app_assoc.
      * by constructor.
    + exists [seg]. simpl. rewrite app_nil_r. split; [done|].
      by apply segmented_stop.
    + exists [seg]. simpl. rewrite app_nil_r. split; [done|].
      by apply segmented_stop.
Qed.

(** The log of a run: the reading of the configuration, and then
    either the line that reports it, or the logs of the records. *)
Lemma Handle_segmented (P : config → SQSMessage → bool → list event → Prop)
    (event : SQSEvent) (st : state World) :
  (∀ cfg d r (st : state World),
      ∃ seg, log (handle cfg d r st).2 = log st ++ seg
             ∧ P cfg r (returned (handle cfg d r st).1) seg) →
  match env_Parse (world st) config_zero with
  | (_, Some err) =>
      trace st (Handle event st).2
      = [EnvParse;
         Stderr ("Unable to parse configuration: " +:+ err +:+ nl +:+ nl)]
  | (cfg, None) =>
      ∃ segs,
        trace st (Handle event st).2 = EnvParse :: concat segs
        ∧ segmented (P cfg) (Records event) (returned (Handle event st).1) segs
  end.
Proof.
  intros HP. rewrite Handle_unfold; simpl.
  destruct (env_Parse (world st) config_zero) as [cfg [err|]]; simpl.
  - apply trace_app. simpl. by rewrite <- !app_assoc, !append_assoc.
  - set (d := NewDialer _ _ _ _). set (st0 := {| world := _; log := _ |}).
    destruct (forRange_segmented (P cfg) cfg d (HP cfg d) (Records event) st0)
      as (segs & Hlog & Hsegs).
    exists segs.
    destruct (forRange (Records event) (handle cfg d) st0) as [[[]|code|what] st1];
      simpl in *; (split; [|done]); apply trace_app; rewrite Hlog;
      subst st0; simpl; by rewrite <- app_assoc.
Qed.

(** C7, as amended. In the log of a run, after the reading of the
    configuration, each record has its own stretch, in the order of the
    batch. The stretch of a record whose decoding reports an error is
    the decoding and the line on standard error and nothing else, and
    it is the last: no connector is made, no template is fetched, parsed
    or executed and nothing is dispatched for it. The stretch of a
    record decoded without error holds, after the decoding and the
    connector, only fetches of the two templates the decoded request
    names, parsings, executions, lines on standard error, and the
    dispatch of a message composed from that request, whose address
    fields are taken as they are. *)
Theorem only_decoded_requests_downstream (event : SQSEvent) (st : state World) :
  match env_Parse (world st) config_zero with
  | (_, Some err) =>
      trace st (Handle event st).2
      = [EnvParse;
         Stderr ("Unable to parse configuration: " +:+ err +:+ nl +:+ nl)]
  | (cfg, None) =>
      ∃ segs,
        trace st (Handle event st).2 = EnvParse :: concat segs
        ∧ segmented (decodedFirst json_Unmarshal FormatAddress encodeString cfg)
            (Records event) (returned (Handle event st).1) segs
  end.
Proof.
  apply (Handle_segmented
           (decodedFirst json_Unmarshal FormatAddress encodeString)).
  intros cfg d r st1.
  destruct (handle_steps cfg d r st1)
    as (n & hsrc & tsrc & msg & tail & Hlog & Htail & Hdec & Hdone & Hcomp).
  eexists. split; [exact Hlog|]. unfold decodedFirst.
  destruct (json_Unmarshal (Body r) mailMessage_zero) as [q [err|]]; simpl in *.
  - destruct Hdec as [-> ->]. split; [|done].
    destruct (returned (handle cfg d r st1).1); [|done].
    destruct Hdone as [Hdone _]. destruct (Hdone eq_refl). lia.
  - destruct n as [|n]; [lia|]. simpl. eexists. split; [reflexivity|].
    apply Forall_app. split.
    + destruct n as [|[|[|[|[|[|[|n]]]]]]]; simpl;
        repeat first [apply Forall_nil_2 | apply Forall_cons_2];
        rewrite ?take_nil; simpl; auto; try apply Hcomp; lia.
    + destruct Htail as [->|[line ->]];
        by repeat first [apply Forall_nil_2 | apply Forall_cons_2].
Qed.

End ProgramFacts.

(** ** The header encoding *)

Example encoded_words :
  mime.Encode "Welcome" = "Welcome"
  ∧ mime.Encode "Café" = "=?UTF-8?q?Caf=C3=A9?="
  ∧ mime.Encode "¡Hola, señor!" = "=?UTF-8?q?=C2=A1Hola,_se=C3=B1or!?="
  ∧ mime.Encode "" = "".
Proof. vm_compute. repeat split; reflexivity. Qed.

Lemma needsEncoding_app (a b : string) :
  mime.needsEncoding (a +:+ b) = mime.needsEncoding a || mime.needsEncoding b.
Proof.
  induction a as [|c a IH]; [done|].
  rewrite append_cons. simpl. by rewrite IH, orb_assoc.
Qed.

Lemma writeQByte_plain (b : ascii) : mime.needsEncoding (mime.writeQByte b) = false.
Proof. destruct b as [[] [] [] [] [] [] [] []]; reflexivity. Qed.

(** The encoded form holds printable characters only. *)
Lemma qEncode_plain (s : string) :
  ∀ pending currentLen,
    mime.needsEncoding (mime.qEncode pending currentLen s) = false.
Proof.
  induction s as [|b s IH]; intros pending currentLen; [done|].
  destruct pending as [|pending].
  - cbn -[mime.runeWidth mime.writeQByte mime.splitWord Nat.mul decide].
    destruct (_ && _); destruct (decide _);
      by rewrite ?needsEncoding_app, writeQByte_plain, IH.
  - cbn -[mime.writeQByte]. by rewrite needsEncoding_app, writeQByte_plain, IH.
Qed.

Lemma Encode_plain (s : string) : mime.needsEncoding (mime.Encode s) = false.
Proof.
  unfold mime.Encode. destruct (mime.needsEncoding s) eqn:E; [|done].
  unfold mime.encodeWord. by rewrite !needsEncoding_app, qEncode_plain.
Qed.

(** A string is its own encoding exactly when it needs none. *)
Lemma Encode_verbatim (s : string) :
  mime.Encode s = s ↔ mime.needsEncoding s = false.
Proof.
  split.
  - intros H. rewrite <- H. apply Encode_plain.
  - intros H. unfold mime.Encode. by rewrite H.
Qed.

Section HeaderFacts.

Context {World HTemplate TTemplate StorageConnector : Type}.
Variable json_Unmarshal : string → mailMessage → mailMessage * option error.
Variable storageconnector_NewS3 : string → StorageConnector.
Variable GetTemplateContent :
  StorageConnector → string → World → outcome string * World.
Variable html_Parse : string → string → option HTemplate * option error.
Variable text_Parse : string → string → option TTemplate * option error.
Variable html_Execute : HTemplate → gmap string Value → string * option error.
Variable text_Execute : TTemplate → gmap string Value → string * option error.
Variable FormatAddress : string → string → string.
Variable DialAndSend : Dialer → Message → World → option error * World.

Local Abbreviation handle :=
  (handleRecord json_Unmarshal storageconnector_NewS3 GetTemplateContent
                html_Parse text_Parse html_Execute text_Execute
                FormatAddress mime.Encode DialAndSend).

(** C3, as amended. The message dispatched for a record that decodes to
    a request [q] carries as its To, Subject and Reply-To headers the
    header encoding of the request's [to_address], [subject] and
    [reply_to]; a header is the field itself exactly when the field
    holds only printable ASCII characters and tabs. *)
Theorem headers_set_encoded cfg d (r : SQSMessage) (q : mailMessage)
    (st st' : state World) (o : outcome unit) (i : nat) (msg : Message) :
  json_Unmarshal (Body r) mailMessage_zero = (q, None) →
  handle cfg d r st = (o, st') →
  trace st st' !! i = Some (Send msg) →
  GetHeader "To" msg = [mime.Encode (ToAddress q)]
  ∧ GetHeader "Subject" msg = [mime.Encode (Subject q)]
  ∧ GetHeader "Reply-To" msg = [mime.Encode (ReplyToAddress q)]
  ∧ (GetHeader "To" msg = [ToAddress q]
     ↔ mime.needsEncoding (ToAddress q) = false)
  ∧ (GetHeader "Subject" msg = [Subject q]
     ↔ mime.needsEncoding (Subject q) = false)
  ∧ (GetHeader "Reply-To" msg = [ReplyToAddress q]
     ↔ mime.needsEncoding (ReplyToAddress q) = false).
Proof.
  intros Hq H Hin%list_elem_of_lookup_2.
  destruct (handle_sends _ _ _ _ _ _ _ _ _ _ _ _ _ _ _ _ _ H Hin)
    as (q' & Hq' & Hc).
  rewrite Hq in Hq'. simplify_eq.
  destruct Hc as (_ & Hto & Hsub & _ & _ & Hrep & _).
  unfold GetHeader. rewrite Hto, Hsub, Hrep. simpl.
  repeat split; try (intros [= E]; by apply Encode_verbatim);
    intros E%Encode_verbatim; by rewrite E.
Qed.

End HeaderFacts.

(** ** The reference decoder *)

Example scan_empty_object : json.scan "{}" = Some (json.JObject []).
Proof. reflexivity. Qed.

Example scan_nested :
  json.scan " [1, -2.5e3, true, null, {}] "
  = Some (json.JArray [json.JNumber "1"; json.JNumber "-2.5e3"; json.JBool true;
                       json.JNull; json.JObject []]).
Proof. vm_compute. reflexivity. Qed.

Example scan_rejects :
  json.scan "" = None ∧ json.scan "{" = None ∧ json.scan "[1,]" = None
  ∧ json.scan "01" = None ∧ json.scan "nul" = None ∧ json.scan "{} x" = None.
Proof. vm_compute. repeat split; reflexivity. Qed.

Example float64_range :
  json.float64InRange "1.7976931348623157e308" = true
  ∧ json.float64InRange "1.7976931348623159e308" = false
  ∧ json.float64InRange "1e400" = false
  ∧ json.float64InRange "-0.5e-400" = true.
Proof. vm_compute. repeat split; reflexivity. Qed.

Example fieldOf_folds :
  json.fieldOf "to_address" = Some json.to_address
  ∧ json.fieldOf "To_Address" = Some json.to_address
  ∧ json.fieldOf "REPLY_TO" = Some json.reply_to
  ∧ json.fieldOf "reply_to_address" = None
  ∧ json.fieldOf "to" = None.
Proof. vm_compute. repeat split; reflexivity. Qed.

Example decode_welcome :
  ToAddress (fake.decoded fake.welcome) = "tom@example.org"
  ∧ CC (fake.decoded fake.welcome) = ["a@example.org"; "b@example.org"]
  ∧ TemplateContext (fake.decoded fake.welcome) !! "name"
    = Some (VString "<b>Tom & Jerry</b>")
  ∧ (json.Unmarshal fake.welcome mailMessage_zero).2 = None.
Proof. vm_compute. repeat split; reflexivity. Qed.

Example decode_type_errors :
  (json.Unmarshal "[]" mailMessage_zero).2
  = Some "json: cannot unmarshal array into Go value of type main.mailMessage"
  ∧ (json.Unmarshal ("{" +:+ fake.member "subject" "5" +:+ "}") mailMessage_zero).2
    = Some ("json: cannot unmarshal number into Go struct field "
            +:+ "mailMessage.subject of type string")
  ∧ json.Unmarshal "null" mailMessage_zero = (mailMessage_zero, None).
Proof. vm_compute. repeat split; reflexivity. Qed.

Lemma storeInto_absent (members : list (string * json.JSON)) (t : json.target) :
  json.noField members = true →
  json.storeInto members t = (t, None).
Proof.
  induction members as [|[k j] members IH]; simpl; [done|].
  intros [Hk Hrest]%andb_prop.
  destruct (json.fieldOf k); [done|]. by rewrite IH.
Qed.

Lemma storeMembers_absent (members : list (string * json.JSON)) (v : mailMessage) :
  json.noField members = true →
  json.storeMembers members v = (v, None).
Proof.
  intros H. unfold json.storeMembers. by rewrite storeInto_absent.
Qed.

(** An array under a name that comes again is stored into the memory
    of the slice the first one left: an element that is null keeps
    what that memory holds, within the length of the slice and past
    it. *)
Example repeated_member_reuses_memory :
  CC (json.Unmarshal
        ("{" +:+ fake.member "cc" "[1,2,3]" +:+ "}") mailMessage_zero).1
  = [""; ""; ""]
  ∧ CC (fake.decoded
          ("{" +:+ fake.member "cc"
                     ("[" +:+ fake.str "a" +:+ "," +:+ fake.str "b" +:+ ","
                          +:+ fake.str "c" +:+ "]") +:+ ","
               +:+ fake.member "cc" ("[" +:+ fake.str "x" +:+ "]") +:+ ","
               +:+ fake.member "cc" "[null,null]" +:+ "}"))
    = ["x"; "b"]
  ∧ CC (fake.decoded
          ("{" +:+ fake.member "cc"
                     ("[" +:+ fake.str "a" +:+ "," +:+ fake.str "b" +:+ "]") +:+ ","
               +:+ fake.member "cc" "[]" +:+ ","
               +:+ fake.member "cc" "[null,null]" +:+ "}"))
    = [""; ""].
Proof. vm_compute. repeat split; reflexivity. Qed.

(** A body that is not JSON is reported and the request is left as it
    was. *)
Lemma Unmarshal_syntax_error (body : string) (v : mailMessage) :
  json.scan body = None →
  json.Unmarshal body v = (v, Some "invalid character in JSON input").
Proof. intros H. unfold json.Unmarshal. by rewrite H. Qed.

(** C10. A body that is a JSON object in which no request field occurs
    decodes without error to the request whose strings, sequences and
    context are all empty, and the handler goes on with it: it makes the
    connector and fetches the template named [.html.template]; when the
    two templates are there, parse and execute without error on the
    empty context, it composes a message of the two outputs whose To,
    Subject and Reply-To headers are the encoding of the empty string
    and whose Cc and Bcc headers are empty, hands it to the transport,
    and ends as the transport decides. *)
Theorem absent_fields_decode_to_zero {World HTemplate TTemplate StorageConnector}
    (newS3 : string → StorageConnector)
    (GetTemplateContent : StorageConnector → string → World → outcome string * World)
    (html_Parse : string → string → option HTemplate * option error)
    (text_Parse : string → string → option TTemplate * option error)
    (html_Execute : HTemplate → gmap string Value → string * option error)
    (text_Execute : TTemplate → gmap string Value → string * option error)
    (FormatAddress : string → string → string)
    (encodeString : string → string)
    (DialAndSend : Dialer → Message → World → option error * World)
    (cfg : config) (d : Dialer) (r : SQSMessage)
    (members : list (string * json.JSON)) (st : state World) :
  json.scan (Body r) = Some (json.JObject members) →
  json.noField members = true →
  json.Unmarshal (Body r) mailMessage_zero = (mailMessage_zero, None)
  ∧ let run := handleRecord json.Unmarshal newS3 GetTemplateContent html_Parse
                 text_Parse html_Execute text_Execute FormatAddress encodeString
                 DialAndSend cfg d r st in
    (∃ l, trace st run.2 = [Unmarshal (Body r); NewS3 (Bucket cfg);
                            GetTemplate ".html.template"] ++ l)
    ∧ ∀ hsrc tsrc w1 w2 th tt hout tout,
        GetTemplateContent (newS3 (Bucket cfg)) ".html.template" (world st)
        = (Ok hsrc, w1) →
        GetTemplateContent (newS3 (Bucket cfg)) ".txt.template" w1
        = (Ok tsrc, w2) →
        (html_Parse "htmlTemplate" hsrc).1 = Some th →
        (text_Parse "textTemplate" tsrc).1 = Some tt →
        html_Execute th ∅ = (hout, None) →
        text_Execute tt ∅ = (tout, None) →
        ∃ msg,
          GetHeader "From" msg = [FormatAddress "" ""]
          ∧ GetHeader "To" msg = [encodeString ""]
          ∧ GetHeader "Subject" msg = [encodeString ""]
          ∧ GetHeader "Reply-To" msg = [encodeString ""]
          ∧ GetHeader "Cc" msg = [] ∧ GetHeader "Bcc" msg = []
          ∧ parts msg = [ {| contentType := "text/plain"; content := tout |};
                          {| contentType := "text/html"; content := hout |} ]
          ∧ let rendered :=
              log st ++
              [Unmarshal (Body r); NewS3 (Bucket cfg);
               GetTemplate ".html.template"; ParseTemplate HTML hsrc;
               GetTemplate ".txt.template"; ParseTemplate TXT tsrc;
               ExecuteTemplate HTML; ExecuteTemplate TXT; Send msg] in
            run = match DialAndSend d msg w2 with
                  | (None, w) => (Ok (), {| world := w; log := rendered |})
                  | (Some err, w) =>
                      (Exit 1,
                       {| world := w;
                          log := rendered ++
                                 [Stderr ("Unable to send mail: "
                                          +:+ err +:+ nl +:+ nl)] |})
                  end.
Proof.
  intros Hscan Habsent.
  assert (Hq : json.Unmarshal (Body r) mailMessage_zero = (mailMessage_zero, None)).
  { unfold json.Unmarshal. rewrite Hscan. simpl. by apply storeMembers_absent. }
  split; [done|]. intros run. split.
  - destruct run as [o st'] eqn:Hrun. subst run. simpl.
    apply (handle_proceeds _ _ _ _ _ _ _ _ _ _ _ _ _ _ _ _ _ Hq Hrun).
  - intros hsrc tsrc w1 w2 th tt hout tout Hh Ht Hph Hpt Heh Het. subst run.
    unfold handleRecord, buildMailContent, fetch, parseHTML, parseTXT,
      executeHTML, executeTXT, send, lift, bind, emit, ret, exitErrorf.
    simpl. rewrite Hq. simpl.
    change ("" +:+ ".html.template") with ".html.template".
    change ("" +:+ ".txt.template") with ".txt.template".
    rewrite Hh. simpl. rewrite Ht. simpl. rewrite Hph, Hpt. simpl.
    rewrite Heh. simpl. rewrite Het. simpl.
    match goal with |- context [DialAndSend d ?m w2] => exists m end.
    repeat (split; [by unfold GetHeader; simpl; simplify_map_eq|]).
    destruct (DialAndSend d _ w2) as [[err|] w]; simpl;
      by rewrite <- ?app_assoc, ?append_assoc.
Qed.

(** ** The reference template engines *)

Example read_fields :
  template.read "Hello {{ .user.name }}, {{.x}}!"
  = template.Parsed [template.Text "Hello "; template.Field ["user"; "name"];
                     template.Text ", "; template.Field ["x"]; template.Text "!"].
Proof. vm_compute. reflexivity. Qed.

Example read_unclosed :
  template.read "{{" = template.Unclosed
  ∧ template.read "<p>{{.name</p>" = template.Unclosed
  ∧ template.read "{{if .x}}yes{{end}} {{.name" = template.Unclosed.
Proof. vm_compute. repeat split; reflexivity. Qed.

Example read_outside :
  template.read "{{.1a}}" = template.Outside
  ∧ template.read "{{if .x}}yes{{end}}" = template.Outside
  ∧ template.read "{{range .items}}{{.}}{{end}}" = template.Outside.
Proof. vm_compute. repeat split; reflexivity. Qed.

Example escape_markup :
  template.htmlEscape "<b>Tom & Jerry</b>"
  = "&lt;b&gt;Tom &amp; Jerry&lt;/b&gt;".
Proof. reflexivity. Qed.

Example element_content :
  template.elementContent [template.Text "<h1>Welcome "; template.Field ["name"];
                           template.Text "</h1>"] = true
  ∧ template.elementContent [template.Text "<a href="; template.Field ["url"];
                             template.Text ">"] = false
  ∧ template.elementContent [template.Text "<script>"; template.Field ["x"];
                             template.Text "</script>"] = false.
Proof. vm_compute. repeat split; reflexivity. Qed.

Example field_of_a_string :
  template.evalFieldChain
    (Some (VMap (<["name" := VString "Tom"]> ∅))) ["name"; "first"]
  = template.Failed "can't evaluate field first in type interface {}".
Proof. vm_compute. reflexivity. Qed.

Section TemplateFacts.

Import template.

Context {HTemplate TTemplate : Type}.
Variable html_library_Parse : string → string → option HTemplate * option error.
Variable text_library_Parse : string → string → option TTemplate * option error.
Variable html_library_Execute : HTemplate → gmap string Value → string * option error.
Variable text_library_Execute : TTemplate → gmap string Value → string * option error.
Variable Sprint : Value → string.

Local Abbreviation html_Parse := (html_Parse html_library_Parse).
Local Abbreviation text_Parse := (text_Parse text_library_Parse).
Local Abbreviation html_Execute := (html_Execute html_library_Execute Sprint).
Local Abbreviation text_Execute := (text_Execute text_library_Execute Sprint).




Lemma htmlUnescape_byte (c : ascii) (rest : string) :
  isByte 0 c = false →
  htmlUnescape (htmlEscapeByte c +:+ rest) = String c (htmlUnescape rest).
Proof.
  destruct c as [[] [] [] [] [] [] [] []]; intros H; try discriminate H;
    reflexivity.
Qed.

(** Escaped text reads back as the text that was escaped. *)
Lemma htmlUnescape_htmlEscape (s : string) :
  nulFree s = true → htmlUnescape (htmlEscape s) = s.
Proof.
  induction s as [|c s IH]; [done|]. simpl. intros [Hc Hs]%andb_prop.
  rewrite htmlUnescape_byte by (by destruct (isByte 0 c)).
  by rewrite IH.
Qed.

(** An execution that reports no error has written the rendering. *)
Lemma walk_rendering print (nodes : list node) (data : gmap string Value) out :
  walk print nodes data = (out, None) → out = rendering print nodes data.
Proof.
  revert out. induction nodes as [|[s|ident] nodes IH]; intros out; simpl.
  - by intros [= <-].
  - destruct (walk print nodes data) as [out' e]. intros [= <- ->].
    by rewrite (IH out').
  - unfold valueOf.
    destruct (evalFieldChain (Some (VMap data)) ident) as [v|err]; [|done].
    destruct (walk print nodes data) as [out' e]. intros [= <- ->].
    by rewrite (IH out').
Qed.






Lemma evalFieldChain_invalid (rest : list string) :
  evalFieldChain None rest = Done None.
Proof. by induction rest. Qed.

(** A field chain that starts at a key the context does not have has no
    value, and evaluating it is no error. *)
Lemma evalFieldChain_absent (data : gmap string Value) (k : string)
    (rest : list string) :
  data !! k = None →
  evalFieldChain (Some (VMap data)) (k :: rest) = Done None.
Proof.
  intros Hk. simpl. rewrite Hk. apply evalFieldChain_invalid.
Qed.






(** An action that is never closed is an error of [Parse], whatever the
    library does elsewhere. *)
Lemma Parse_unclosed name src :
  read src = Unclosed →
  html_Parse name src = (None, Some (unclosed name))
  ∧ text_Parse name src = (None, Some (unclosed name)).
Proof.
  intros H. unfold template.html_Parse, template.text_Parse. by rewrite H.
Qed.

Context {World StorageConnector : Type}.
Variable GetTemplateContent :
  StorageConnector → string → World → outcome string * World.
Variable FormatAddress : string → string → string.
Variable encodeString : string → string.

Local Abbreviation build :=
  (buildMailContent GetTemplateContent html_Parse text_Parse
     html_Execute text_Execute FormatAddress encodeString).




End TemplateFacts.

(** ** Runs in the in-memory world *)


Lemma decode_failure_witness :
  fake.HandleRequest
    {| Records := [fake.record fake.welcome]
                  ++ fake.record fake.malformed :: [fake.record fake.welcome] |}
    fake.start
  = (Exit 1,
     {| world := world (fake.HandleRequest (fake.batch [fake.welcome]) fake.start).2;
        log := log (fake.HandleRequest (fake.batch [fake.welcome]) fake.start).2 ++
               [Unmarshal (Body (fake.record fake.malformed));
                Stderr ("Unable to unmarshal JSON for reason: "
                        +:+ "invalid character in JSON input" +:+ nl
                        +:+ "Body: " +:+ Body (fake.record fake.malformed) +:+ nl)] |}).
Proof.
  apply (decode_failure_short_circuits fake.env_Parse json.Unmarshal fake.NewS3
           fake.GetTemplateContent fake.html_Parse fake.text_Parse
           fake.html_Execute fake.text_Execute
           fake.FormatAddress fake.encodeString fake.DialAndSend
           [fake.record fake.welcome] [fake.record fake.welcome]
           (fake.record fake.malformed) fake.start
           (fake.HandleRequest (fake.batch [fake.welcome]) fake.start).2
           None mailMessage_zero "invalid character in JSON input").
  - vm_compute. reflexivity.
  - vm_compute. reflexivity.
Defined.

Lemma headers_witness :
  GetHeader "To"
    (fake.firstSent (fake.handleRecord fake.cfg0 fake.dialer0
                       (fake.record fake.welcome) fake.start).2)
  = [mime.Encode (ToAddress (fake.decoded fake.welcome))]
  ∧ GetHeader "Subject"
      (fake.firstSent (fake.handleRecord fake.cfg0 fake.dialer0
                         (fake.record fake.welcome) fake.start).2)
    = [mime.Encode (Subject (fake.decoded fake.welcome))]
  ∧ GetHeader "Reply-To"
      (fake.firstSent (fake.handleRecord fake.cfg0 fake.dialer0
                         (fake.record fake.welcome) fake.start).2)
    = [mime.Encode (ReplyToAddress (fake.decoded fake.welcome))]
  ∧ (GetHeader "To"
       (fake.firstSent (fake.handleRecord fake.cfg0 fake.dialer0
                          (fake.record fake.welcome) fake.start).2)
     = [ToAddress (fake.decoded fake.welcome)]
     ↔ mime.needsEncoding (ToAddress (fake.decoded fake.welcome)) = false)
  ∧ (GetHeader "Subject"
       (fake.firstSent (fake.handleRecord fake.cfg0 fake.dialer0
                          (fake.record fake.welcome) fake.start).2)
     = [Subject (fake.decoded fake.welcome)]
     ↔ mime.needsEncoding (Subject (fake.decoded fake.welcome)) = false)
  ∧ (GetHeader "Reply-To"
       (fake.firstSent (fake.handleRecord fake.cfg0 fake.dialer0
                          (fake.record fake.welcome) fake.start).2)
     = [ReplyToAddress (fake.decoded fake.welcome)]
     ↔ mime.needsEncoding (ReplyToAddress (fake.decoded fake.welcome)) = false).
Proof.
  apply (headers_set_encoded json.Unmarshal fake.NewS3
           fake.GetTemplateContent fake.html_Parse fake.text_Parse
           fake.html_Execute fake.text_Execute
           fake.FormatAddress fake.DialAndSend
           fake.cfg0 fake.dialer0 (fake.record fake.welcome)
           (fake.decoded fake.welcome) fake.start
           (fake.handleRecord fake.cfg0 fake.dialer0
              (fake.record fake.welcome) fake.start).2
           (Ok ()) 8).
  - vm_compute. reflexivity.
  - vm_compute. reflexivity.
  - vm_compute. reflexivity.
Defined.

(** The subject of the request [accented] has a letter outside ASCII:
    the record decodes, its templates parse and render, the message is
    dispatched, and its Subject header is an encoded word, not the
    subject of the request. *)
Lemma encoded_subject_counterexample :
  (json.Unmarshal fake.accented mailMessage_zero).2 = None
  ∧ Subject (fake.decoded fake.accented) = "Café"
  ∧ (fake.HandleRequest (fake.batch [fake.accented]) fake.start).1 = Ok None
  ∧ GetHeader "Subject"
      (fake.firstSent (fake.HandleRequest (fake.batch [fake.accented]) fake.start).2)
    = ["=?UTF-8?q?Caf=C3=A9?="]
  ∧ GetHeader "Subject"
      (fake.firstSent (fake.HandleRequest (fake.batch [fake.accented]) fake.start).2)
    ≠ [Subject (fake.decoded fake.accented)].
Proof. vm_compute. repeat split; try reflexivity. discriminate. Qed.


(** A body that does not decode ends the run at its record: nothing is
    fetched, rendered or dispatched for it, and the record after it is
    not looked at. *)
Example stopped_at_malformed :
  fake.HandleRequest (fake.batch [fake.malformed; fake.welcome]) fake.start
  = (Exit 1,
     {| world := fake.w0;
        log := [EnvParse; Unmarshal fake.malformed;
                Stderr (decodeFailure "invalid character in JSON input"
                          fake.malformed)] |}).
Proof. vm_compute. reflexivity. Qed.

(** The templates of the bucket are all read by the engines of the
    fragment: none is left to the library. *)
Example bucket_in_fragment :
  forallb (λ src, match template.read src.2 with
                  | template.Parsed nodes => template.elementContent nodes
                  | template.Unclosed => true
                  | template.Outside => false
                  end) (map_to_list fake.templates) = true.
Proof. vm_compute. reflexivity. Qed.

(** The body [{}] decodes to a request whose addresses are all empty, and
    the request is rendered, assembled and dispatched as it is. *)
Lemma empty_addresses_counterexample :
  json.Unmarshal "{}" mailMessage_zero = (mailMessage_zero, None)
  ∧ FromAddress (fake.decoded "{}") = ""
  ∧ ToAddress (fake.decoded "{}") = ""
  ∧ ReplyToAddress (fake.decoded "{}") = ""
  ∧ (fake.HandleRequest (fake.batch ["{}"]) fake.start).1 = Ok None
  ∧ fake.addresses (fake.HandleRequest (fake.batch ["{}"]) fake.start).2
    = [([""], [""], [""])].
Proof. vm_compute. repeat split; reflexivity. Qed.

Lemma absent_fields_witness :
  json.Unmarshal (Body (fake.record fake.unknownFields)) mailMessage_zero
  = (mailMessage_zero, None)
  ∧ (∃ l, trace fake.start
            (fake.handleRecord fake.cfg0 fake.dialer0
               (fake.record fake.unknownFields) fake.start).2
          = [Unmarshal (Body (fake.record fake.unknownFields));
             NewS3 (Bucket fake.cfg0); GetTemplate ".html.template"] ++ l)
  ∧ ∃ msg,
      GetHeader "From" msg = [fake.FormatAddress "" ""]
      ∧ GetHeader "To" msg = [fake.encodeString ""]
      ∧ GetHeader "Subject" msg = [fake.encodeString ""]
      ∧ GetHeader "Reply-To" msg = [fake.encodeString ""]
      ∧ GetHeader "Cc" msg = [] ∧ GetHeader "Bcc" msg = []
      ∧ parts msg = [ {| contentType := "text/plain"; content := "Hello" |};
                      {| contentType := "text/html"; content := "<p>Hello</p>" |} ]
      ∧ let rendered :=
          log fake.start ++
          [Unmarshal (Body (fake.record fake.unknownFields));
           NewS3 (Bucket fake.cfg0);
           GetTemplate ".html.template"; ParseTemplate HTML "<p>Hello</p>";
           GetTemplate ".txt.template"; ParseTemplate TXT "Hello";
           ExecuteTemplate HTML; ExecuteTemplate TXT; Send msg] in
        fake.handleRecord fake.cfg0 fake.dialer0
          (fake.record fake.unknownFields) fake.start
        = match fake.DialAndSend fake.dialer0 msg fake.w0 with
          | (None, w) => (Ok (), {| world := w; log := rendered |})
          | (Some err, w) =>
              (Exit 1,
               {| world := w;
                  log := rendered ++
                         [Stderr ("Unable to send mail: " +:+ err +:+ nl +:+ nl)] |})
          end.
Proof.
  destruct (absent_fields_decode_to_zero fake.NewS3
              fake.GetTemplateContent fake.html_Parse fake.text_Parse
              fake.html_Execute fake.text_Execute
              fake.FormatAddress fake.encodeString fake.DialAndSend
              fake.cfg0 fake.dialer0 (fake.record fake.unknownFields)
              (fake.membersOf fake.unknownFields) fake.start)
    as (Hzero & Hfetch & Hrun).
  - vm_compute. reflexivity.
  - vm_compute. reflexivity.
  - split; [exact Hzero|]. split; [exact Hfetch|].
    apply (Hrun "<p>Hello</p>" "Hello" fake.w0 fake.w0
             (template.Nodes [template.Text "<p>Hello</p>"])
             (template.Nodes [template.Text "Hello"])
             "<p>Hello</p>" "Hello").
    + vm_compute. reflexivity.
    + vm_compute. reflexivity.
    + vm_compute. reflexivity.
    + vm_compute. reflexivity.
    + vm_compute. reflexivity.
    + vm_compute. reflexivity.
Defined.


(** The bodies of the message composed for the request [welcome], whose
    context gives [name] as a string with markup in it. *)
Example escaped_and_verbatim :
  fake.bodies (fake.HandleRequest (fake.batch [fake.welcome]) fake.start).2
  = [[ {| contentType := "text/plain";
          content := "Welcome <b>Tom & Jerry</b>" |};
       {| contentType := "text/html";
          content := "<h1>Welcome &lt;b&gt;Tom &amp; Jerry&lt;/b&gt;</h1>" |} ]].
Proof. vm_compute. reflexivity. Qed.



(** The text template of the request [nested] looks up a field in a
    string: executing it reports an error, and the run exits. *)
Example render_error_exits :
  (fake.HandleRequest (fake.batch [fake.nested; fake.welcome]) fake.start).1 = Exit 1
  ∧ List.last (log (fake.HandleRequest (fake.batch [fake.nested; fake.welcome])
                      fake.start).2) EnvParse
    = Stderr ("Unable to execute TXT template: "
              +:+ "template: executing: can't evaluate field first in type interface {}"
              +:+ nl +:+ nl)
  ∧ fake.bodies (fake.HandleRequest (fake.batch [fake.nested; fake.welcome])
                   fake.start).2 = [].
Proof. vm_compute. repeat split; reflexivity. Qed.

(** C5. The HTML template of the request [broken] has an action that is
    not closed. [Parse] reports it and returns no template, whatever the
    library does with the templates outside the fragment; the handler
    drops the error, fetches and parses the text template, and panics on
    the nil template when it executes it: the run ends in a nil
    dereference and nothing is written to standard error. *)
Theorem parse_error_not_surfaced :
  (∀ (HTemplate : Type)
     (library_Parse : string → string → option HTemplate * option error),
      template.html_Parse library_Parse "htmlTemplate" "<p>{{.name</p>"
      = (None, Some "template: htmlTemplate: parse error"))
  ∧ fake.HandleRequest (fake.batch [fake.broken]) fake.start
    = (Panic nilDereference,
       {| world := fake.w0;
          log := [EnvParse; Unmarshal fake.broken; NewS3 "mail-templates";
                  GetTemplate "broken.html.template";
                  ParseTemplate HTML "<p>{{.name</p>";
                  GetTemplate "broken.txt.template";
                  ParseTemplate TXT "Hello {{.name}}";
                  ExecuteTemplate HTML] |})
  ∧ calls isStderr
      (log (fake.HandleRequest (fake.batch [fake.broken]) fake.start).2) = 0.
Proof. split; [intros; vm_compute; reflexivity|]. vm_compute. by split. Qed.

(** * Further properties of the handler *)

Lemma sends_app (l1 l2 : list event) : sends (l1 ++ l2) = sends l1 ++ sends l2.
Proof.
  induction l1 as [|e l1 IH]; [done|]. destruct e; simpl; by rewrite ?IH.
Qed.

Lemma length_sends (l : list event) : length (sends l) = calls isSend l.
Proof.
  unfold calls. induction l as [|e l IH]; [done|]. destruct e; simpl; by rewrite ?IH.
Qed.

Lemma elem_of_sends (m : Message) (l : list event) : m ∈ sends l → Send m ∈ l.
Proof.
  induction l as [|e l IH]; simpl; [by intros ?%elem_of_nil|].
  destruct e; try by (intros Hm; apply list_elem_of_further; auto).
  intros [->|Hm]%elem_of_cons; [apply list_elem_of_here|].
  apply list_elem_of_further; auto.
Qed.

Lemma trace_trans {World} (st st1 st2 : state World) l1 l2 :
  log st1 = log st ++ l1 → log st2 = log st1 ++ l2 →
  trace st st2 = trace st st1 ++ trace st1 st2.
Proof.
  intros H1 H2. rewrite (trace_app _ _ _ H1), (trace_app _ _ _ H2).
  apply trace_app. by rewrite H2, H1, <- app_assoc.
Qed.

Section Insensitive.

Context {World : Type}.

Lemma insensitive_ret {A} (a : A) : insensitive (ret (World := World) a).
Proof. intros st L. exists []. by rewrite !app_nil_r. Qed.

Lemma insensitive_emit (e : event) : insensitive (emit (World := World) e).
Proof. intros st L. by exists [e]. Qed.

Lemma insensitive_panic {A} (what : string) :
  insensitive (panic (World := World) (A := A) what).
Proof. intros st L. exists []. by rewrite !app_nil_r. Qed.

Lemma insensitive_lift {A} (o : outcome A) : insensitive (lift (World := World) o).
Proof. intros st L. exists []. by rewrite !app_nil_r. Qed.

Lemma insensitive_exitErrorf {A} (text : string) :
  insensitive (exitErrorf (World := World) (A := A) text).
Proof. intros st L. by exists [Stderr (text +:+ nl)]. Qed.

Lemma insensitive_bind {A B} (c : M World A) (k : A → M World B) :
  insensitive c → (∀ a, insensitive (k a)) → insensitive (bind c k).
Proof.
  intros Hc Hk st L. unfold bind.
  destruct (Hc st L) as (l1 & Hl1 & ->).
  destruct (c st) as [[a|code|what] st1]; simpl in *; [|by exists l1..].
  destruct (Hk a st1 (L ++ l1)) as (l2 & Hl2 & ->).
  exists (l1 ++ l2). by rewrite Hl2, Hl1, !app_assoc.
Qed.

Lemma insensitive_fetch {A} (call : World → outcome A * World) :
  insensitive (λ st, let '(r, w) := call (world st) in
                     (r, {| world := w; log := log st |})).
Proof.
  intros st L. simpl. destruct (call (world st)) as [r w]. simpl.
  exists []. by rewrite !app_nil_r.
Qed.

Lemma insensitive_send {A} (call : World → A * World) :
  insensitive (λ st, let '(r, w) := call (world st) in
                     (Ok r, {| world := w; log := log st |})).
Proof.
  intros st L. simpl. destruct (call (world st)) as [r w]. simpl.
  exists []. by rewrite !app_nil_r.
Qed.

End Insensitive.

Section MoreProgramFacts.

Context {World HTemplate TTemplate StorageConnector : Type}.
Variable env_Parse : World → config → config * option error.
Variable json_Unmarshal : string → mailMessage → mailMessage * option error.
Variable storageconnector_NewS3 : string → StorageConnector.
Variable GetTemplateContent :
  StorageConnector → string → World → outcome string * World.
Variable html_Parse : string → string → option HTemplate * option error.
Variable text_Parse : string → string → option TTemplate * option error.
Variable html_Execute : HTemplate → gmap string Value → string * option error.
Variable text_Execute : TTemplate → gmap string Value → string * option error.
Variable FormatAddress : string → string → string.
Variable encodeString : string → string.
Variable DialAndSend : Dialer → Message → World → option error * World.

Local Abbreviation build :=
  (buildMailContent GetTemplateContent html_Parse text_Parse
                    html_Execute text_Execute FormatAddress encodeString).
Local Abbreviation composed := (composed FormatAddress encodeString).
Local Abbreviation handle :=
  (handleRecord json_Unmarshal storageconnector_NewS3 GetTemplateContent
                html_Parse text_Parse html_Execute text_Execute
                FormatAddress encodeString DialAndSend).
Local Abbreviation Handle :=
  (HandleRequest env_Parse json_Unmarshal storageconnector_NewS3
                 GetTemplateContent html_Parse text_Parse html_Execute
                 text_Execute FormatAddress encodeString DialAndSend).

Local Abbreviation dispatchOf := (dispatchOf json_Unmarshal FormatAddress encodeString).
Local Abbreviation handle_events :=
  (handle_events json_Unmarshal storageconnector_NewS3 GetTemplateContent
     html_Parse text_Parse html_Execute text_Execute FormatAddress encodeString DialAndSend).
Local Abbreviation handle_sends :=
  (handle_sends json_Unmarshal storageconnector_NewS3 GetTemplateContent
     html_Parse text_Parse html_Execute text_Execute FormatAddress encodeString DialAndSend).
Local Abbreviation forRange_extends :=
  (forRange_extends json_Unmarshal storageconnector_NewS3 GetTemplateContent
     html_Parse text_Parse html_Execute text_Execute FormatAddress encodeString DialAndSend).
Local Abbreviation Handle_unfold :=
  (Handle_unfold env_Parse json_Unmarshal storageconnector_NewS3
     GetTemplateContent html_Parse text_Parse html_Execute text_Execute
     FormatAddress encodeString DialAndSend).

Lemma handle_dispatches cfg d r (st : state World) :
  let run := handle cfg d r st in
  (sends (trace st run.2) = []
   ∨ ∃ msg, sends (trace st run.2) = [msg] ∧ dispatchOf r msg)
  ∧ (returned run.1 = true → length (sends (trace st run.2)) = 1)
  ∧ ∃ l, log run.2 = log st ++ l.
Proof.
  intros run. destruct run as [o st'] eqn:H. subst run. simpl.
  edestruct handle_events as (l & Hl & _ & Hs & _ & _ & Hok); [exact H|].
  pose proof (trace_app _ _ _ Hl) as Ht.
  assert (Hlen : length (sends (trace st st')) = calls isSend l)
    by (by rewrite Ht, length_sends).
  split; [|split; [|eauto]].
  - destruct (sends (trace st st')) as [|m [|m' ms]] eqn:E; simpl in Hlen;
      [by left| |lia].
    right. exists m. split; [done|].
    eapply handle_sends; [exact H|]. apply elem_of_sends. rewrite E.
    apply list_elem_of_here.
  - intros Hret. destruct (Hok Hret) as (_ & Hs1 & _). lia.
Qed.

Lemma forRange_dispatches cfg d (records : list SQSMessage) :
  ∀ st : state World,
    let run := forRange records (handle cfg d) st in
    Forall2 dispatchOf
      (take (length (sends (trace st run.2))) records) (sends (trace st run.2))
    ∧ (returned run.1 = true →
       length (sends (trace st run.2)) = length records).
Proof.
  induction records as [|r records IH]; intros st; simpl.
  - unfold ret, trace; simpl. rewrite drop_all. simpl. by split; [constructor|].
  - unfold bind.
    pose proof (handle_dispatches cfg d r st) as (Hone & Hret1 & l1 & Hl1).
    destruct (handle cfg d r st) as [o1 st1] eqn:H1. simpl in *.
    destruct o1 as [[]|code|what]; simpl.
    + specialize (IH st1). simpl in IH. destruct IH as [IH IHret].
      edestruct forRange_extends as [l2 Hl2];
        [apply surjective_pairing|].
      rewrite (trace_trans st st1 _ l1 l2 Hl1 Hl2), sends_app.
      destruct Hone as [Hnil|(m & Hm & Hd)];
        [by rewrite Hnil in Hret1; specialize (Hret1 eq_refl)|].
      rewrite Hm. simpl. split.
      * by constructor.
      * intros Hret. by rewrite (IHret Hret).
    + split; [|done].
      destruct Hone as [->|(m & -> & Hd)]; simpl; repeat constructor; done.
    + split; [|done].
      destruct Hone as [->|(m & -> & Hd)]; simpl; repeat constructor; done.
Qed.

(** X1. The messages a run hands to the transport are, in order, the
    messages composed from the first records of the batch, each from the
    request its record decodes to; a run that returns has handed over
    one message for every record. *)
Theorem dispatches_follow_record_order (event : SQSEvent) (st : state World) :
  Forall2 dispatchOf
    (take (length (sends (trace st (Handle event st).2))) (Records event))
    (sends (trace st (Handle event st).2))
  ∧ (returned (Handle event st).1 = true →
     length (sends (trace st (Handle event st).2)) = length (Records event)).
Proof.
  rewrite Handle_unfold; simpl.
  destruct (env_Parse (world st) config_zero) as [cfg [err|]]; simpl.
  - unfold trace; simpl. rewrite <- app_assoc, drop_app_length. simpl.
    split; [constructor|done].
  - set (d := NewDialer _ _ _ _). set (st0 := {| world := _; log := _ |}).
    pose proof (forRange_dispatches cfg d (Records event) st0) as [Hf Hret].
    edestruct (forRange_extends cfg d (Records event) st0)
      as [l Hl]; [apply surjective_pairing|].
    assert (Ht : ∀ st', log st' = log st0 ++ l →
                        sends (trace st st') = sends (trace st0 st')).
    { intros st' Hst'. rewrite (trace_app st0 st' l Hst').
      rewrite (trace_app st st' ([EnvParse] ++ l)); [done|].
      rewrite Hst'. subst st0; simpl. by rewrite <- app_assoc. }
    destruct (forRange (Records event) (handle cfg d) st0) as [o1 st1] eqn:H1.
    simpl in *.
    assert (st1 = (match o1 with
                   | Ok _ => (Ok None, st1)
                   | Exit code => (Exit code, st1)
                   | Panic what => (Panic what, st1)
                   end : outcome (option error) * state World).2) as <-
      by (by destruct o1).
    rewrite (Ht st1 Hl). split; [done|].
    intros Hr. apply Hret. by destruct o1.
Qed.

(** X2. A composed message is handed to the transport once. When the
    transport accepts it the record is done; when the transport reports
    an error the handler writes one line to standard error and exits
    with status 1, without a second attempt. *)
Theorem dispatch_ends_the_record cfg d (r : SQSMessage) (q : mailMessage)
    (st st2 : state World) (msg : Message) :
  json_Unmarshal (Body r) mailMessage_zero = (q, None) →
  build (storageconnector_NewS3 (Bucket cfg)) q
    {| world := world st;
       log := log st ++ [Unmarshal (Body r); NewS3 (Bucket cfg)] |}
  = (Ok msg, st2) →
  handle cfg d r st
  = match DialAndSend d msg (world st2) with
    | (None, w) => (Ok (), {| world := w; log := log st2 ++ [Send msg] |})
    | (Some err, w) =>
        (Exit 1,
         {| world := w;
            log := log st2 ++
                   [Send msg;
                    Stderr ("Unable to send mail: " +:+ err +:+ nl +:+ nl)] |})
    end.
Proof.
  intros Hq Hb.
  unfold handleRecord, bind, emit, send, ret, exitErrorf; simpl.
  rewrite Hq; simpl. rewrite <- app_assoc; simpl. rewrite Hb; simpl.
  unfold bind, emit; simpl.
  destruct (DialAndSend d msg (world st2)) as [[err|] w]; simpl; [|done].
  by rewrite <- app_assoc, !append_assoc.
Qed.

(** X3. A configuration that does not load ends the run before any
    record is looked at: one line on standard error, exit status 1,
    nothing decoded, nothing dispatched, the world as it was. *)
Theorem configuration_failure_exits_first (event : SQSEvent) (st : state World)
    (cfg : config) (err : error) :
  env_Parse (world st) config_zero = (cfg, Some err) →
  (Handle event st).1 = Exit 1
  ∧ world (Handle event st).2 = world st
  ∧ trace st (Handle event st).2
    = [EnvParse;
       Stderr ("Unable to parse configuration: " +:+ err +:+ nl +:+ nl)].
Proof.
  intros H.
  rewrite (config_error_exits env_Parse json_Unmarshal storageconnector_NewS3
             GetTemplateContent html_Parse text_Parse html_Execute text_Execute
             FormatAddress encodeString DialAndSend event st cfg err H).
  simpl. repeat split. by apply trace_app.
Qed.

(** X4. When executing either template reports an error, the record is
    not dispatched: the run exits with status 1 after one line on
    standard error, nothing is handed to the transport, and the world is
    as the two fetches left it. *)
Theorem render_error_dispatches_nothing cfg d (r : SQSMessage) (q : mailMessage)
    (st : state World) (hsrc tsrc : string) (w1 w2 : World)
    (th : HTemplate) (tt : TTemplate) :
  json_Unmarshal (Body r) mailMessage_zero = (q, None) →
  GetTemplateContent (storageconnector_NewS3 (Bucket cfg))
    (Template q +:+ ".html.template") (world st) = (Ok hsrc, w1) →
  GetTemplateContent (storageconnector_NewS3 (Bucket cfg))
    (Template q +:+ ".txt.template") w1 = (Ok tsrc, w2) →
  (html_Parse "htmlTemplate" hsrc).1 = Some th →
  (text_Parse "textTemplate" tsrc).1 = Some tt →
  match (html_Execute th (TemplateContext q)).2,
        (text_Execute tt (TemplateContext q)).2 with
  | None, None => false
  | _, _ => true
  end = true →
  (handle cfg d r st).1 = Exit 1
  ∧ world (handle cfg d r st).2 = w2
  ∧ sends (trace st (handle cfg d r st).2) = []
  ∧ calls isStderr (trace st (handle cfg d r st).2) = 1.
Proof.
  intros Hq Hh Ht Hph Hpt Herr.
  unfold handleRecord, buildMailContent, fetch, parseHTML, parseTXT,
    executeHTML, executeTXT, bind, emit, ret, exitErrorf; simpl.
  rewrite Hq; simpl. rewrite Hh; simpl. rewrite Ht; simpl.
  rewrite Hph, Hpt; simpl.
  destruct (html_Execute th (TemplateContext q)) as [hout [e1|]]; simpl in *.
  - unfold trace; simpl. rewrite <- !app_assoc, drop_app_length. done.
  - destruct (text_Execute tt (TemplateContext q)) as [tout [e2|]];
      simpl in *; [|done].
    unfold trace; simpl. rewrite <- !app_assoc, drop_app_length. done.
Qed.

(** X5. When the storage does not return a template the composer ends
    the way the storage call ended, at that call: after a failed fetch
    of the HTML template nothing else is fetched, and after a failed
    fetch of the text template nothing is executed. *)
Theorem fetch_failure_stops_rendering (sc : StorageConnector) (q : mailMessage)
    (st : state World) :
  (∀ o w1,
      GetTemplateContent sc (Template q +:+ ".html.template") (world st) = (o, w1) →
      returned o = false →
      failure (build sc q st).1 = failure o
      ∧ (build sc q st).2
        = {| world := w1;
             log := log st ++ [GetTemplate (Template q +:+ ".html.template")] |})
  ∧ (∀ hsrc w1 o w2,
        GetTemplateContent sc (Template q +:+ ".html.template") (world st)
        = (Ok hsrc, w1) →
        GetTemplateContent sc (Template q +:+ ".txt.template") w1 = (o, w2) →
        returned o = false →
        failure (build sc q st).1 = failure o
        ∧ (build sc q st).2
          = {| world := w2;
               log := log st ++
                      [GetTemplate (Template q +:+ ".html.template");
                       ParseTemplate HTML hsrc;
                       GetTemplate (Template q +:+ ".txt.template")] |}).
Proof.
  split.
  - intros o w1 Hh Ho.
    unfold buildMailContent, fetch, bind, emit; simpl. rewrite Hh.
    by destruct o.
  - intros hsrc w1 o w2 Hh Ht Ho.
    unfold buildMailContent, fetch, parseHTML, bind, emit, ret; simpl.
    rewrite Hh; simpl. rewrite Ht.
    destruct o; simpl; [done| |]; by rewrite <- !app_assoc.
Qed.

(** X6. A record that is handled to the end went through every step
    once and in this order: decoded without error, connector made, HTML
    template fetched and parsed, text template fetched and parsed, HTML
    executed, text executed, both without error, message dispatched and
    accepted. The message has the text body first and the HTML body as
    its alternative, each the output of its execution. *)
Theorem handled_record_steps cfg d (r : SQSMessage) (st st' : state World) :
  handle cfg d r st = (Ok (), st') →
  ∃ q hsrc tsrc w1 w2 th tt msg,
    json_Unmarshal (Body r) mailMessage_zero = (q, None)
    ∧ GetTemplateContent (storageconnector_NewS3 (Bucket cfg))
        (Template q +:+ ".html.template") (world st) = (Ok hsrc, w1)
    ∧ GetTemplateContent (storageconnector_NewS3 (Bucket cfg))
        (Template q +:+ ".txt.template") w1 = (Ok tsrc, w2)
    ∧ (html_Parse "htmlTemplate" hsrc).1 = Some th
    ∧ (text_Parse "textTemplate" tsrc).1 = Some tt
    ∧ (html_Execute th (TemplateContext q)).2 = None
    ∧ (text_Execute tt (TemplateContext q)).2 = None
    ∧ parts msg
      = [ {| contentType := "text/plain";
             content := (text_Execute tt (TemplateContext q)).1 |};
          {| contentType := "text/html";
             content := (html_Execute th (TemplateContext q)).1 |} ]
    ∧ DialAndSend d msg w2 = (None, world st')
    ∧ trace st st'
      = [Unmarshal (Body r); NewS3 (Bucket cfg);
         GetTemplate (Template q +:+ ".html.template"); ParseTemplate HTML hsrc;
         GetTemplate (Template q +:+ ".txt.template"); ParseTemplate TXT tsrc;
         ExecuteTemplate HTML; ExecuteTemplate TXT; Send msg].
Proof.
  intros H. unfold handleRecord, buildMailContent in H.
  rewrite !formatAll_map in H. run H.
  exists (json_Unmarshal (Body r) mailMessage_zero).1.
  do 7 eexists.
  repeat match goal with |- _ ∧ _ => split end; try eassumption; try reflexivity.
  - by destruct (json_Unmarshal (Body r) mailMessage_zero) as [? []];
      simplify_eq/=.
  - apply trace_app; simpl. by rewrite <- !app_assoc.
Qed.

(** X7. A composed message has the six headers From, To, Subject, Cc,
    Bcc and Reply-To and no other, the From header formatted from the
    address and the name of the sender. *)
Theorem composed_message_headers (sc : StorageConnector) (q : mailMessage)
    (st : state World) :
  match build sc q st with
  | (Ok msg, _) =>
      dom (header msg)
      = (list_to_set ["From"; "To"; "Subject"; "Cc"; "Bcc"; "Reply-To"] : gset string)
      ∧ GetHeader "From" msg = [FormatAddress (FromAddress q) (FromName q)]
  | _ => True
  end.
Proof.
  destruct (build sc q st) as [[msg| |] st'] eqn:H; [|done|done].
  unfold buildMailContent in H. rewrite !formatAll_map in H. run H.
  unfold SetHeader, SetAddressHeader, GetHeader; simpl. split.
  - rewrite !dom_insert_L, dom_empty_L. set_solver.
  - by simplify_map_eq.
Qed.

Local Abbreviation forRange_app := (@forRange_app World SQSMessage).

Lemma handle_profile cfg d r (st : state World) o st' :
  handle cfg d r st = (o, st') →
  ∃ l, log st' = log st ++ l
       ∧ calls isEnvParse l = 0
       ∧ calls isUnmarshal l = 1
       ∧ calls isNewS3 l ≤ 1
       ∧ calls isSend l ≤ calls isNewS3 l.
Proof.
  intros H. unfold handleRecord, buildMailContent in H.
  rewrite !formatAll_map in H.
  run H; (eexists; split; [logs|]); vm_compute; repeat split; lia.
Qed.

Lemma forRange_profile cfg d (records : list SQSMessage) :
  ∀ (st : state World) o st',
    forRange records (handle cfg d) st = (o, st') →
    ∃ l, log st' = log st ++ l
         ∧ calls isEnvParse l = 0
         ∧ calls isUnmarshal l ≤ length records
         ∧ calls isNewS3 l ≤ calls isUnmarshal l
         ∧ calls isSend l ≤ calls isNewS3 l.
Proof.
  induction records as [|r records IH]; intros st o st' H; simpl in H.
  - unfold ret in H. simplify_eq. exists []. rewrite app_nil_r. by vm_compute.
  - unfold bind in H.
    destruct (handle cfg d r st) as [o1 st1] eqn:H1.
    destruct (handle_profile _ _ _ _ _ _ H1) as (l1 & Hl1 & He1 & Hu1 & Hn1 & Hs1).
    destruct o1 as [[]|code|what]; simplify_eq/=;
      try (exists l1; repeat split; [done|done|lia|lia|lia]).
    destruct (IH _ _ _ H) as (l & Hl & He & Hu & Hn & Hs).
    exists (l1 ++ l). rewrite !calls_app.
    split; [by rewrite Hl, Hl1, <- app_assoc|]. lia.
Qed.

(** X8. In every run the configuration is read once and first. When
    it does not load, one line on standard error follows and nothing
    else. When it loads, the rest of the log is one stretch for each
    record in the order of the batch, up to the first record that is
    not handled to the end: the decoding of the record; then, only when
    the decoding reported no error, the first steps of the record in
    the order of the source (connector, HTML template fetched and
    parsed, text template fetched and parsed, HTML executed, text
    executed, message dispatched); then at most one line on standard
    error. A record is handled to the end exactly when all its steps
    were taken and nothing was written to standard error. *)
Theorem configuration_read_once (event : SQSEvent) (st : state World) :
  match env_Parse (world st) config_zero with
  | (_, Some err) =>
      trace st (Handle event st).2
      = [EnvParse;
         Stderr ("Unable to parse configuration: " +:+ err +:+ nl +:+ nl)]
  | (cfg, None) =>
      ∃ segs,
        trace st (Handle event st).2 = EnvParse :: concat segs
        ∧ segmented (inOrder json_Unmarshal cfg) (Records event)
            (returned (Handle event st).1) segs
  end.
Proof.
  apply (Handle_segmented env_Parse json_Unmarshal storageconnector_NewS3
           GetTemplateContent html_Parse text_Parse html_Execute text_Execute
           FormatAddress encodeString DialAndSend (inOrder json_Unmarshal)).
  intros cfg d r st1.
  destruct (handle_steps json_Unmarshal storageconnector_NewS3
              GetTemplateContent html_Parse text_Parse html_Execute
              text_Execute FormatAddress encodeString DialAndSend cfg d r st1)
    as (n & hsrc & tsrc & msg & tail & Hlog & Htail & Hdec & Hdone & _).
  eexists. split; [exact Hlog|].
  exists n, hsrc, tsrc, msg, tail. repeat (split; [done|]). split; [|done].
  intros Hn. destruct (json_Unmarshal (Body r) mailMessage_zero).2; [|done].
  destruct Hdec. lia.
Qed.

(** What a record does depends on the world it is handled in and not on
    the log so far. *)
Lemma handle_insensitive cfg d r : insensitive (handle cfg d r).
Proof.
  unfold handleRecord, buildMailContent, fetch, parseHTML, parseTXT,
    executeHTML, executeTXT, send.
  repeat first
    [ apply insensitive_bind; [|intros ?]
    | apply insensitive_ret
    | apply insensitive_emit
    | apply insensitive_panic
    | apply insensitive_exitErrorf
    | apply insensitive_lift
    | apply insensitive_fetch
    | apply insensitive_send
    | progress simpl
    | case_match ].
Qed.

Lemma handle_log_irrelevant cfg d r (st : state World) (L : list event) :
  handle cfg d r {| world := world st; log := L |}
  = ((handle cfg d r st).1,
     {| world := world (handle cfg d r st).2;
        log := L ++ trace st (handle cfg d r st).2 |}).
Proof.
  destruct (handle_insensitive cfg d r st L) as (l & Hl & ->).
  by rewrite (trace_app _ _ _ Hl).
Qed.

Lemma forRange_log_irrelevant cfg d (records : list SQSMessage) :
  ∀ (st : state World) (L : list event),
    forRange records (handle cfg d) {| world := world st; log := L |}
    = ((forRange records (handle cfg d) st).1,
       {| world := world (forRange records (handle cfg d) st).2;
          log := L ++ trace st (forRange records (handle cfg d) st).2 |}).
Proof.
  induction records as [|r records IH]; intros st L; simpl.
  - unfold ret, trace; simpl. by rewrite drop_all, app_nil_r.
  - unfold bind. rewrite handle_log_irrelevant.
    destruct (handle cfg d r st) as [o1 st1] eqn:H1. simpl.
    destruct (handle_profile _ _ _ _ _ _ H1) as (l1 & Hl1 & _).
    destruct o1 as [[]|code|what]; simpl; [|done|done].
    rewrite (IH st1 (L ++ trace st st1)).
    destruct (forRange_extends cfg d records st1 _ _ (surjective_pairing _))
      as [l2 Hl2].
    by rewrite (trace_trans st st1 _ l1 l2 Hl1 Hl2), app_assoc.
Qed.

(** X9. A batch can be cut in two. When the run on the first part
    returns and the configuration reads the same afterwards, the run on
    the whole batch ends as the run on the second part does when started
    where the first left the world, it leaves the same world, and it
    dispatches the messages of the first run followed by the messages of
    the second. *)
Theorem batch_split (l1 l2 : list SQSMessage) (st st1 : state World)
    (v : option error) :
  Handle {| Records := l1 |} st = (Ok v, st1) →
  env_Parse (world st1) config_zero = env_Parse (world st) config_zero →
  (Handle {| Records := l1 ++ l2 |} st).1 = (Handle {| Records := l2 |} st1).1
  ∧ world (Handle {| Records := l1 ++ l2 |} st).2
    = world (Handle {| Records := l2 |} st1).2
  ∧ sends (trace st (Handle {| Records := l1 ++ l2 |} st).2)
    = sends (trace st st1)
      ++ sends (trace st1 (Handle {| Records := l2 |} st1).2).
Proof.
  rewrite !Handle_unfold; simpl. intros H1 Henv. rewrite Henv.
  destruct (env_Parse (world st) config_zero) as [cfg [err|]]; simpl in *; [done|].
  set (d := NewDialer _ _ _ _) in *.
  rewrite forRange_app.
  destruct (forRange l1 (handle cfg d) _) as [o1 st1'] eqn:Hl1.
  destruct o1 as [[]|code|what]; simplify_eq/=.
  destruct (forRange_extends _ _ _ _ _ _ Hl1) as [la Hla]. simpl in Hla.
  rewrite (forRange_log_irrelevant cfg d l2 st1 (log st1 ++ [EnvParse])).
  destruct (forRange_extends cfg d l2 st1 _ _ (surjective_pairing _))
    as [lb Hlb].
  destruct (forRange l2 (handle cfg d) st1) as [o2 st2] eqn:Hl2. simpl in *.
  assert (Ha : trace st st1 = [EnvParse] ++ la)
    by (apply trace_app; by rewrite Hla, <- app_assoc).
  assert (Hb : trace st1 st2 = lb) by (by apply trace_app).
  assert (Hc : trace st st2 = ([EnvParse] ++ la) ++ lb)
    by (apply trace_app; by rewrite Hlb, Hla, <- !app_assoc).
  destruct o2 as [[]|code|what]; simpl; (split; [done|]); (split; [done|]);
    rewrite Hc, Ha, Hb;
    (rewrite (trace_app st1 _ ([EnvParse] ++ lb))
       by (by simpl; rewrite <- app_assoc));
    by rewrite !sends_app.
Qed.

End MoreProgramFacts.

(** ** The decoder and the fields of the request *)






(** ** Runs for the further properties *)

Lemma dispatch_witness :
  fake.handleRecord fake.cfg0 fake.dialer0 (fake.record fake.welcome) scenario.down
  = match fake.DialAndSend fake.dialer0
            (scenario.message scenario.down fake.welcome)
            (world (scenario.built scenario.down fake.welcome).2) with
    | (None, w) =>
        (Ok (),
         {| world := w;
            log := log (scenario.built scenario.down fake.welcome).2 ++
                   [Send (scenario.message scenario.down fake.welcome)] |})
    | (Some err, w) =>
        (Exit 1,
         {| world := w;
            log := log (scenario.built scenario.down fake.welcome).2 ++
                   [Send (scenario.message scenario.down fake.welcome);
                    Stderr ("Unable to send mail: " +:+ err +:+ nl +:+ nl)] |})
    end.
Proof.
  apply (dispatch_ends_the_record json.Unmarshal fake.NewS3
           fake.GetTemplateContent fake.html_Parse fake.text_Parse
           fake.html_Execute fake.text_Execute
           fake.FormatAddress fake.encodeString fake.DialAndSend
           fake.cfg0 fake.dialer0 (fake.record fake.welcome)
           (fake.decoded fake.welcome) scenario.down
           (scenario.built scenario.down fake.welcome).2
           (scenario.message scenario.down fake.welcome)).
  - vm_compute. reflexivity.
  - vm_compute. reflexivity.
Defined.

Example mail_server_down :
  (fake.HandleRequest (fake.batch [fake.welcome; fake.welcome]) scenario.down).1
  = Exit 1
  ∧ length (sends (log (fake.HandleRequest (fake.batch [fake.welcome; fake.welcome])
                          scenario.down).2)) = 1
  ∧ fake.outbox (world (fake.HandleRequest (fake.batch [fake.welcome; fake.welcome])
                          scenario.down).2) = [].
Proof. vm_compute. repeat split; reflexivity. Qed.

Lemma configuration_failure_witness :
  (fake.HandleRequest (fake.batch [fake.welcome]) scenario.badPort).1 = Exit 1
  ∧ world (fake.HandleRequest (fake.batch [fake.welcome]) scenario.badPort).2
    = world scenario.badPort
  ∧ trace scenario.badPort
      (fake.HandleRequest (fake.batch [fake.welcome]) scenario.badPort).2
    = [EnvParse;
       Stderr ("Unable to parse configuration: "
               +:+ "env: parse error on field SMTPPort of type int"
               +:+ nl +:+ nl)].
Proof.
  apply (configuration_failure_exits_first fake.env_Parse json.Unmarshal fake.NewS3
           fake.GetTemplateContent fake.html_Parse fake.text_Parse
           fake.html_Execute fake.text_Execute
           fake.FormatAddress fake.encodeString fake.DialAndSend
           (fake.batch [fake.welcome]) scenario.badPort
           (fake.env_Parse (world scenario.badPort) config_zero).1).
  vm_compute. reflexivity.
Defined.

Lemma render_error_witness :
  (fake.handleRecord fake.cfg0 fake.dialer0 (fake.record fake.nested) fake.start).1
  = Exit 1
  ∧ world (fake.handleRecord fake.cfg0 fake.dialer0 (fake.record fake.nested)
             fake.start).2 = fake.w0
  ∧ sends (trace fake.start
             (fake.handleRecord fake.cfg0 fake.dialer0 (fake.record fake.nested)
                fake.start).2) = []
  ∧ calls isStderr
      (trace fake.start
         (fake.handleRecord fake.cfg0 fake.dialer0 (fake.record fake.nested)
            fake.start).2) = 1.
Proof.
  apply (render_error_dispatches_nothing json.Unmarshal fake.NewS3
           fake.GetTemplateContent fake.html_Parse fake.text_Parse
           fake.html_Execute fake.text_Execute
           fake.FormatAddress fake.encodeString fake.DialAndSend
           fake.cfg0 fake.dialer0 (fake.record fake.nested)
           (fake.decoded fake.nested) fake.start
           "<p>Hello</p>" "Hello {{.name.first}}" fake.w0 fake.w0
           (template.Nodes [template.Text "<p>Hello</p>"])
           (template.Nodes [template.Text "Hello ";
                            template.Field ["name"; "first"]])).
  - vm_compute. reflexivity.
  - vm_compute. reflexivity.
  - vm_compute. reflexivity.
  - vm_compute. reflexivity.
  - vm_compute. reflexivity.
  - vm_compute. reflexivity.
Defined.

Example template_missing :
  (fake.HandleRequest (fake.batch [fake.welcome]) scenario.noTemplates).1 = Exit 1
  ∧ trace scenario.noTemplates
      (fake.HandleRequest (fake.batch [fake.welcome]) scenario.noTemplates).2
    = [EnvParse; Unmarshal fake.welcome; NewS3 "mail-templates";
       GetTemplate "welcome.html.template"].
Proof. vm_compute. repeat split; reflexivity. Qed.

Lemma handled_record_witness :
  ∃ q hsrc tsrc w1 w2 th tt msg,
    json.Unmarshal (Body (fake.record fake.welcome)) mailMessage_zero = (q, None)
    ∧ fake.GetTemplateContent (fake.NewS3 (Bucket fake.cfg0))
        (Template q +:+ ".html.template") (world fake.start) = (Ok hsrc, w1)
    ∧ fake.GetTemplateContent (fake.NewS3 (Bucket fake.cfg0))
        (Template q +:+ ".txt.template") w1 = (Ok tsrc, w2)
    ∧ (fake.html_Parse "htmlTemplate" hsrc).1 = Some th
    ∧ (fake.text_Parse "textTemplate" tsrc).1 = Some tt
    ∧ (fake.html_Execute th (TemplateContext q)).2 = None
    ∧ (fake.text_Execute tt (TemplateContext q)).2 = None
    ∧ parts msg
      = [ {| contentType := "text/plain";
             content := (fake.text_Execute tt (TemplateContext q)).1 |};
          {| contentType := "text/html";
             content := (fake.html_Execute th (TemplateContext q)).1 |} ]
    ∧ fake.DialAndSend fake.dialer0 msg w2
      = (None, world (fake.handleRecord fake.cfg0 fake.dialer0
                        (fake.record fake.welcome) fake.start).2)
    ∧ trace fake.start
        (fake.handleRecord fake.cfg0 fake.dialer0 (fake.record fake.welcome)
           fake.start).2
      = [Unmarshal (Body (fake.record fake.welcome)); NewS3 (Bucket fake.cfg0);
         GetTemplate (Template q +:+ ".html.template"); ParseTemplate HTML hsrc;
         GetTemplate (Template q +:+ ".txt.template"); ParseTemplate TXT tsrc;
         ExecuteTemplate HTML; ExecuteTemplate TXT; Send msg].
Proof.
  apply (handled_record_steps json.Unmarshal fake.NewS3
           fake.GetTemplateContent fake.html_Parse fake.text_Parse
           fake.html_Execute fake.text_Execute
           fake.FormatAddress fake.encodeString fake.DialAndSend
           fake.cfg0 fake.dialer0 (fake.record fake.welcome) fake.start).
  vm_compute. reflexivity.
Defined.

Lemma batch_split_witness :
  (fake.HandleRequest
     {| Records := [fake.record fake.welcome] ++ [fake.record fake.welcomeNoContext] |}
     fake.start).1
  = (fake.HandleRequest {| Records := [fake.record fake.welcomeNoContext] |}
       (fake.HandleRequest {| Records := [fake.record fake.welcome] |}
          fake.start).2).1
  ∧ world (fake.HandleRequest
             {| Records := [fake.record fake.welcome]
                           ++ [fake.record fake.welcomeNoContext] |}
             fake.start).2
    = world (fake.HandleRequest {| Records := [fake.record fake.welcomeNoContext] |}
               (fake.HandleRequest {| Records := [fake.record fake.welcome] |}
                  fake.start).2).2
  ∧ sends (trace fake.start
             (fake.HandleRequest
                {| Records := [fake.record fake.welcome]
                              ++ [fake.record fake.welcomeNoContext] |}
                fake.start).2)
    = sends (trace fake.start
               (fake.HandleRequest {| Records := [fake.record fake.welcome] |}
                  fake.start).2)
      ++ sends (trace
                  (fake.HandleRequest {| Records := [fake.record fake.welcome] |}
                     fake.start).2
                  (fake.HandleRequest
                     {| Records := [fake.record fake.welcomeNoContext] |}
                     (fake.HandleRequest {| Records := [fake.record fake.welcome] |}
                        fake.start).2).2).
Proof.
  apply (batch_split fake.env_Parse json.Unmarshal fake.NewS3
           fake.GetTemplateContent fake.html_Parse fake.text_Parse
           fake.html_Execute fake.text_Execute
           fake.FormatAddress fake.encodeString fake.DialAndSend
           [fake.record fake.welcome] [fake.record fake.welcomeNoContext]
           fake.start
           (fake.HandleRequest {| Records := [fake.record fake.welcome] |}
              fake.start).2
           None).
  - vm_compute. reflexivity.
  - vm_compute. reflexivity.
Defined.


